(** * PathFix: gitignore-style matching and header rewriting

    A shallow embedding of [pkg/processor/gitignore.go] and of
    [processFile] in [pkg/processor/processor.go], together with the
    parts of the Go standard library these two rely on ([strings],
    [bytes], [path/filepath], [bufio]).

    Go strings and byte slices are sequences of bytes; they are modelled
    by [string], whose characters are the 256 values of [ascii].  The
    model is the one of a Unix host: [filepath.Separator] is ['/']. *)

From Stdlib Require Import Bool Arith NArith ZArith List Permutation Ascii String Lia.
Import ListNotations.

Local Open Scope bool_scope.
Local Open Scope list_scope.
Local Open Scope string_scope.

(** ** Bytes with a name *)

Definition LF : ascii := "010"%char.
Definition CR : ascii := "013"%char.
Definition NUL : ascii := "000"%char.

(** The one-byte string "\n". *)
Definition nl : string := String LF "".
(** The two-byte string "\r\n". *)
Definition crlf : string := String CR (String LF "").

(** ** Slicing: [s[:n]] and [s[n:]] *)

Fixpoint take (n : nat) (s : string) : string :=
  match n, s with
  | S n', String c s' => String c (take n' s')
  | _, _ => ""
  end.

Fixpoint drop (n : nat) (s : string) : string :=
  match n, s with
  | S n', String _ s' => drop n' s'
  | _, _ => s
  end.

(** ** Package [strings] (and the same functions of package [bytes]) *)

Module strings.

(** [len(s) >= len(prefix) && s[:len(prefix)] == prefix] *)
Definition HasPrefix (s prefix : string) : bool :=
  (length prefix <=? length s)%nat && (take (length prefix) s =? prefix).

(** [len(s) >= len(suffix) && s[len(s)-len(suffix):] == suffix] *)
Definition HasSuffix (s suffix : string) : bool :=
  (length suffix <=? length s)%nat
  && (drop (length s - length suffix) s =? suffix).

(** [Index] returns the offset of the first instance of [substr] in [s];
    [None] stands for Go's [-1]. *)
Fixpoint Index (s substr : string) : option nat :=
  if HasPrefix s substr then Some 0
  else match s with
       | "" => None
       | String _ s' => option_map S (Index s' substr)
       end.

(** [Contains(s, substr)] is [Index(s, substr) >= 0]. *)
Definition Contains (s substr : string) : bool :=
  match Index s substr with Some _ => true | None => false end.

(** [IndexByte] returns the offset of the first byte [c] of [s]. *)
Fixpoint IndexByte (s : string) (c : ascii) : option nat :=
  match s with
  | "" => None
  | String a s' =>
      if (a =? c)%char then Some 0 else option_map S (IndexByte s' c)
  end.

(** [Count] for a one-byte separator. *)
Fixpoint Count (s : string) (c : ascii) : nat :=
  match s with
  | "" => 0
  | String a s' => (if (a =? c)%char then 1 else 0) + Count s' c
  end.

(** [Split(s, sep)] for a one-byte separator, the only kind the
    program passes ("*" and "/"): the pieces between the separators,
    [Count(s, sep) + 1] of them. *)
Fixpoint Split (s : string) (sep : ascii) : list string :=
  match s with
  | "" => [""]
  | String a s' =>
      if (a =? sep)%char then "" :: Split s' sep
      else match Split s' sep with
           | piece :: pieces => String a piece :: pieces
           | [] => [String a ""]
           end
  end.

(** [bytes.Replace(s, old, new, 1)]: a copy of [s] with its first
    instance of [old] replaced by [new]; [s] itself when [old] does not
    occur. *)
Definition Replace1 (s old new : string) : string :=
  match Index s old with
  | None => s
  | Some j => take j s ++ new ++ drop (j + length old) s
  end.

End strings.

(** ** Package [path/filepath] on a Unix host *)

Module filepath.

(** [ToSlash] returns its argument when [Separator] is ['/']. *)
Definition ToSlash (path : string) : string := path.

(** The first loop of [Base]: strip trailing slashes. *)
Fixpoint stripTrailingSlashes (path : string) : string :=
  match path with
  | "" => ""
  | String c rest =>
      match stripTrailingSlashes rest with
      | "" => if (c =? "/")%char then "" else String c ""
      | rest' => String c rest'
      end
  end.

(** The second loop of [Base]: what follows the last slash. *)
Fixpoint lastElement (path : string) : string :=
  match path with
  | "" => ""
  | String c rest =>
      if strings.Contains rest "/" then lastElement rest
      else if (c =? "/")%char then rest
      else path
  end.

(** [Base] returns the last element of [path]; "." for the empty path
    and "/" for a path of slashes only. *)
Definition Base (path : string) : string :=
  if path =? "" then "."
  else
    let path := lastElement (stripTrailingSlashes path) in
    if path =? "" then "/" else path.

(** The loop of [Ext], run from the left: [ext] is the suffix that
    starts at the last dot seen since the last slash. *)
Fixpoint extFrom (path : string) : option string :=
  match path with
  | "" => None
  | String c rest =>
      if strings.Contains rest "/" then extFrom rest
      else match extFrom rest with
           | Some e => Some e
           | None => if (c =? ".")%char then Some path else None
           end
  end.

(** [Ext] returns the suffix beginning at the final dot of the final
    element of [path], or "" when that element has no dot. *)
Definition Ext (path : string) : string :=
  match extFrom path with Some e => e | None => "" end.

End filepath.

Import strings.

(** ** [pkg/processor/gitignore.go] *)

(** The wildcard block of [matchGitIgnorePattern]: [Some b] when the
    block returns [b], [None] when control leaves it without returning. *)
Definition matchWildcard (path pattern : string) : option bool :=
  match Split pattern "*" with
  | [prefix; suffix] =>
      if (prefix =? "") && negb (suffix =? "") then
        Some (HasSuffix path suffix)
      else if negb (prefix =? "") && (suffix =? "") then
        Some (HasPrefix path prefix)
      else if negb (prefix =? "") && negb (suffix =? "") then
        if Contains prefix "/" then
          Some (HasPrefix path prefix && HasSuffix path suffix)
        else
          let filename := filepath.Base path in
          Some (HasPrefix filename prefix && HasSuffix filename suffix)
      else None
  | _ => None
  end.

(** The final block of [matchGitIgnorePattern] ("Exact match"). *)
Definition matchExact (path pattern : string) : bool :=
  if Contains pattern "/" then
    (path =? pattern) || HasPrefix path (pattern ++ "/")
  else
    existsb (fun part => part =? pattern) (Split path "/").

(** [matchGitIgnorePattern] checks if a path matches a gitignore pattern. *)
Definition matchGitIgnorePattern (path pattern : string) : bool :=
  if HasPrefix pattern "/" then
    let pattern := drop 1 pattern in
    (path =? pattern) || HasPrefix path (pattern ++ "/")
  else if HasSuffix pattern "/" then
    let dirPattern := take (length pattern - 1) pattern in
    (path =? dirPattern)
    || HasPrefix path pattern
    || HasSuffix path ("/" ++ dirPattern)
    || Contains path ("/" ++ dirPattern ++ "/")
  else if HasPrefix pattern "!" then false
  else
    match (if Contains pattern "*" then matchWildcard path pattern
           else None) with
    | Some b => b
    | None => matchExact path pattern
    end.

(** [GitIgnore] holds patterns from a .gitignore file. *)
Record GitIgnore := {
  patterns : list string;
  rootDir : string
}.

(** The first loop of [ShouldIgnore]: the value of [isIgnored] when the
    loop is left.  Negated patterns are skipped; the first match breaks. *)
Fixpoint firstPass (relPath : string) (patterns : list string) : bool :=
  match patterns with
  | [] => false
  | pattern :: rest =>
      if HasPrefix pattern "!" then firstPass relPath rest
      else if matchGitIgnorePattern relPath pattern then true
      else firstPass relPath rest
  end.

(** The second loop of [ShouldIgnore] and the [return true] after it:
    [false] as soon as a negated pattern, its "!" removed, matches. *)
Fixpoint secondPass (relPath : string) (patterns : list string) : bool :=
  match patterns with
  | [] => true
  | pattern :: rest =>
      if negb (HasPrefix pattern "!") then secondPass relPath rest
      else
        let negatedPattern := drop 1 pattern in
        if matchGitIgnorePattern relPath negatedPattern then false
        else secondPass relPath rest
  end.

(** ** Package [bufio]: the first [Scan] of a line scanner *)

Module bufio.

(** [MaxScanTokenSize = 64 * 1024], the size the buffer of a [Scanner]
    may grow to. *)
Definition MaxScanTokenSize : N := 64 * 1024.

(** [dropCR] drops a terminal "\r" from the data. *)
Fixpoint dropCR (data : string) : string :=
  match data with
  | "" => ""
  | String c "" => if (c =? CR)%char then "" else data
  | String c rest => String c (dropCR rest)
  end.

(** [ScanLines], the split function of a new [Scanner]: the token it
    finds in [data], if any.  A token is a line stripped of its
    end-of-line marker, one optional "\r" followed by one "\n"; the
    last line is a token without the marker too, once [atEOF]. *)
Definition ScanLines (data : string) (atEOF : bool) : option string :=
  if atEOF && (length data =? 0)%nat then None
  else match IndexByte data LF with
       | Some i => Some (dropCR (take i data))
       | None => if atEOF then Some (dropCR data) else None
       end.

(** [firstLine content] is what [scanner.Text()] holds after the first
    [scanner.Scan()] of [bufio.NewScanner(bytes.NewReader(content))],
    and [None] when that [Scan] returns false.  [Scan] hands
    [ScanLines] the bytes read so far and doubles its buffer while no
    token is found: a newline among the first [MaxScanTokenSize] bytes
    is found with [atEOF = false]; content shorter than the buffer
    without a newline is scanned once more with [atEOF = true]; a full
    buffer of [MaxScanTokenSize] bytes without a newline stops the
    scanner with [ErrTooLong], and [Scan] returns false. *)
Definition firstLine (content : string) : option string :=
  match IndexByte content LF with
  | Some i =>
      if (N.of_nat i <? MaxScanTokenSize)%N
      then ScanLines (take (S i) content) false
      else None
  | None =>
      if (N.of_nat (length content) <? MaxScanTokenSize)%N
      then ScanLines content true
      else None
  end.

End bufio.

(** ** [pkg/models/models.go] *)

(** [CommentStyle] defines how comments are formatted for a file type. *)
Record CommentStyle := {
  LineComment : string;
  BlockCommentStart : string;
  BlockCommentEnd : string;
  Preferred : string  (* "line" or "block" *)
}.

(** ** [pkg/processor/processor.go] *)

(** [initializeFileTypes]: the supported file types and their comment
    styles, in the order of the map literal (its keys are distinct). *)
Definition cStyle : CommentStyle :=
  {| LineComment := "//"; BlockCommentStart := "/*";
     BlockCommentEnd := "*/"; Preferred := "line" |}.

Definition hashStyle : CommentStyle :=
  {| LineComment := "#"; BlockCommentStart := "";
     BlockCommentEnd := ""; Preferred := "line" |}.

Definition initializeFileTypes : list (string * CommentStyle) :=
  [ (".cs", cStyle); (".go", cStyle); (".c", cStyle); (".cpp", cStyle);
    (".h", cStyle); (".hpp", cStyle); (".java", cStyle); (".js", cStyle);
    (".ts", cStyle); (".jsx", cStyle); (".tsx", cStyle);
    (".sh", hashStyle); (".ps1", hashStyle);
    (".py", {| LineComment := "#"; BlockCommentStart := "'''";
               BlockCommentEnd := "'''"; Preferred := "line" |});
    (".rb", {| LineComment := "#"; BlockCommentStart := "=begin";
               BlockCommentEnd := "=end"; Preferred := "line" |});
    (".html", {| LineComment := ""; BlockCommentStart := "<!--";
                 BlockCommentEnd := "-->"; Preferred := "block" |});
    (".xml", {| LineComment := ""; BlockCommentStart := "<!--";
                BlockCommentEnd := "-->"; Preferred := "block" |});
    (".css", {| LineComment := ""; BlockCommentStart := "/*";
                BlockCommentEnd := "*/"; Preferred := "block" |});
    (".yaml", hashStyle); (".yml", hashStyle); (".toml", hashStyle);
    (".ini", {| LineComment := ";"; BlockCommentStart := "";
                BlockCommentEnd := ""; Preferred := "line" |});
    (".conf", hashStyle);
    (".rs", cStyle); (".swift", cStyle); (".kt", cStyle);
    (".lua", {| LineComment := "--"; BlockCommentStart := "--[[";
                BlockCommentEnd := "--]]"; Preferred := "line" |});
    (".pl", hashStyle); (".php", cStyle) ].

(** A map lookup [fileTypes[ext]]. *)
Fixpoint lookup (ext : string) (fileTypes : list (string * CommentStyle))
  : option CommentStyle :=
  match fileTypes with
  | [] => None
  | (key, style) :: rest => if key =? ext then Some style else lookup ext rest
  end.

(** "Format the comment" in [processFile]: the header line for the file,
    or [None] where the function returns the error
    "no valid comment style for file type". *)
Definition commentText (commentStyle : CommentStyle)
    (commentPrefix relPath : string) : option string :=
  let filePathComment := commentPrefix ++ relPath in
  if (Preferred commentStyle =? "line")
     && negb (LineComment commentStyle =? "") then
    Some (LineComment commentStyle ++ " " ++ filePathComment ++ nl)
  else if negb (BlockCommentStart commentStyle =? "")
          && negb (BlockCommentEnd commentStyle =? "") then
    Some (BlockCommentStart commentStyle ++ " " ++ filePathComment ++ " "
          ++ BlockCommentEnd commentStyle ++ nl)
  else None.

(** "Check if there's already a file path comment": the condition of
    [processFile] on the first line. *)
Definition hasPathComment (firstLine : string) (commentStyle : CommentStyle)
    (commentPrefix : string) : bool :=
  Contains firstLine (LineComment commentStyle)
  && Contains firstLine commentPrefix
  || (Contains firstLine (BlockCommentStart commentStyle)
      && Contains firstLine commentPrefix).

(** What the content computation of [processFile] ends with. *)
Inductive Rewritten :=
| UnsupportedStyle
| NewContent (newContent : string) (updated : bool).

(** [rewrite] is the computation of [processFile] between reading the
    file and writing it back: from the content read, the relative path,
    the comment style of the extension and the configured prefix to
    [newContent] and [updated]. *)
Definition rewrite (content relPath : string) (commentStyle : CommentStyle)
    (commentPrefix : string) : Rewritten :=
  match commentText commentStyle commentPrefix relPath with
  | None => UnsupportedStyle
  | Some commentText =>
      match bufio.firstLine content with
      | Some firstLine =>
          if hasPathComment firstLine commentStyle commentPrefix then
            NewContent (Replace1 content (firstLine ++ nl) commentText) true
          else
            NewContent (commentText ++ content) true
      | None =>
          NewContent commentText true
      end
  end.

(** The fields of [Options], [models.Config] and [Processor] that
    [processFile] reads. *)
Record Options := {
  DryRun : bool;
  Verbose : bool
}.

Record Config := {
  CommentPrefix : string
}.

Record Processor := {
  options : Options;
  config : Config;
  fileTypes : list (string * CommentStyle)
}.

(** The errors of [processFile]: its own two, and those of [os.ReadFile]
    and [os.WriteFile]. *)
Inductive error :=
| ErrUnsupportedFileType (ext : string)
| ErrNoValidCommentStyle (ext : string)
| ErrReadFile
| ErrWriteFile.

(** What [strings.ToLower] does to a byte of an ASCII string. *)
Definition lowerByte (c : ascii) : ascii :=
  let n := nat_of_ascii c in
  if (65 <=? n)%nat && (n <=? 90)%nat then ascii_of_nat (n + 32) else c.

Fixpoint isASCII (s : string) : bool :=
  match s with
  | "" => true
  | String c s' => (nat_of_ascii c <? 128)%nat && isASCII s'
  end.

Fixpoint mapBytes (f : ascii -> ascii) (s : string) : string :=
  match s with
  | "" => ""
  | String c s' => String (f c) (mapBytes f s')
  end.

Section Host.

(** What the program asks of its host: [filepath.Rel] ([None] for an
    error), the Unicode case mapping [strings.ToLower] applies to a
    string with a byte above 127, and a file system with [os.ReadFile]
    ([None] for an error) and [os.WriteFile] (the new state, and whether
    the write succeeded). *)
Variable Rel : string -> string -> option string.
Variable unicodeToLower : string -> string.
Variable FS : Type.
Variable ReadFile : FS -> string -> option string.
Variable WriteFile : FS -> string -> string -> FS * bool.

(** [ShouldIgnore] checks if a file should be ignored based on
    .gitignore patterns. *)
Definition ShouldIgnore (gi : GitIgnore) (path : string) : bool :=
  match Rel (rootDir gi) path with
  | None => false
  | Some relPath =>
      let relPath := filepath.ToSlash relPath in
      let isIgnored := firstPass relPath (patterns gi) in
      if negb isIgnored then false
      else secondPass relPath (patterns gi)
  end.

(** [strings.ToLower]: byte by byte on an ASCII string, by the Unicode
    mapping otherwise. *)
Definition ToLower (s : string) : string :=
  if isASCII s then mapBytes lowerByte s else unicodeToLower s.

(** [isBinaryFile] checks if a file is likely to be binary: a null
    byte among its first 512 bytes.  A file that cannot be opened or
    read is not binary. *)
Definition isBinaryFile (fs : FS) (path : string) : bool :=
  match ReadFile fs path with
  | None => false
  | Some data =>
      let buf := take 512 data in
      match IndexByte buf NUL with Some _ => true | None => false end
  end.

(** [processFile] adds or updates the file header comment.  The result
    is the pair the Go function returns and the file system it leaves;
    what [Verbose] prints is not modelled. *)
Definition processFile (p : Processor) (fs : FS) (filePath relPath : string)
  : (bool * option error) * FS :=
  if isBinaryFile fs filePath then ((false, None), fs)
  else
    let relPath := filepath.ToSlash relPath in
    let ext := ToLower (filepath.Ext filePath) in
    match lookup ext (fileTypes p) with
    | None => ((false, Some (ErrUnsupportedFileType ext)), fs)
    | Some commentStyle =>
        match ReadFile fs filePath with
        | None => ((false, Some ErrReadFile), fs)
        | Some content =>
            match rewrite content relPath commentStyle
                    (CommentPrefix (config p)) with
            | UnsupportedStyle =>
                ((false, Some (ErrNoValidCommentStyle ext)), fs)
            | NewContent newContent updated =>
                if updated && negb (DryRun (options p)) then
                  match WriteFile fs filePath newContent with
                  | (fs', true) => ((updated, None), fs')
                  | (fs', false) => ((false, Some ErrWriteFile), fs')
                  end
                else ((updated, None), fs)
            end
        end
    end.

End Host.

(** ** The rules as the specification words them *)

(** Rule 1, a rooted pattern: with the leading slash stripped, the path
    equals the pattern or starts with the pattern followed by "/". *)
Definition rootedRule (path rest : string) : bool :=
  (path =? rest) || HasPrefix path (rest ++ "/").

(** Rule 2, a directory pattern: the path is [dirName], starts with
    [dirName + "/"], ends with ["/" + dirName] or contains
    ["/" + dirName + "/"]. *)
Definition directoryRule (path dirName : string) : bool :=
  (path =? dirName)
  || HasPrefix path (dirName ++ "/")
  || HasSuffix path ("/" ++ dirName)
  || Contains path ("/" ++ dirName ++ "/").

(** Rule 4, a plain pattern: anchored to the path when it has a slash,
    equal to one of the segments of the path otherwise. *)
Definition plainRule (path pattern : string) : bool :=
  if Contains pattern "/" then
    (path =? pattern) || HasPrefix path (pattern ++ "/")
  else
    existsb (fun segment => segment =? pattern) (Split path "/").

(** Pass 1 excludes the path: some pattern without the negation marker
    matches it. *)
Definition excluded (patterns : list string) (path : string) : bool :=
  existsb (fun pattern =>
             negb (HasPrefix pattern "!")
             && matchGitIgnorePattern path pattern) patterns.

(** Pass 2 includes the path again: some pattern with the negation
    marker matches it once the marker is stripped. *)
Definition reincluded (patterns : list string) (path : string) : bool :=
  existsb (fun pattern =>
             HasPrefix pattern "!"
             && matchGitIgnorePattern path (drop 1 pattern)) patterns.

(** The preferred form of the descriptor is usable: the line token is
    there for "line", both block delimiters are for "block". *)
Definition validPreferred (d : CommentStyle) : bool :=
  ((Preferred d =? "line") && negb (LineComment d =? ""))
  || ((Preferred d =? "block")
      && negb (BlockCommentStart d =? "") && negb (BlockCommentEnd d =? "")).


(** The descriptor yields a header line: the line form when it is
    preferred and its token is there, the block form otherwise when both
    delimiters are there. *)
Definition usable (d : CommentStyle) : bool :=
  ((Preferred d =? "line") && negb (LineComment d =? ""))
  || (negb (BlockCommentStart d =? "") && negb (BlockCommentEnd d =? "")).

(** [ReplacedFirst old new s t]: [t] is [s] with exactly its first
    occurrence of [old] replaced by [new], and [s] itself when [old]
    does not occur in [s]. *)
Inductive ReplacedFirst (old new : string) : string -> string -> Prop :=
| replaced_nowhere (s : string) :
    (forall a b, s <> a ++ old ++ b) ->
    ReplacedFirst old new s s
| replaced_at (a b : string) :
    (forall i, i < length a -> HasPrefix (drop i (a ++ old ++ b)) old = false) ->
    ReplacedFirst old new (a ++ old ++ b) (a ++ new ++ b).

(** A file system in memory, to run [processFile] on: the files by
    name, the latest write first. *)
Definition memFS : Type := list (string * string).

Fixpoint memRead (fs : memFS) (name : string) : option string :=
  match fs with
  | [] => None
  | (n, data) :: rest => if n =? name then Some data else memRead rest name
  end.

Definition memWrite (fs : memFS) (name data : string) : memFS * bool :=
  ((name, data) :: fs, true).

(** Rule 3, a pattern with one "*" between [prefix] and [suffix]: the
    end of the path for "*suffix", its start for "prefix*", both for a
    prefix with a slash, and the start and end of the last element of
    the path otherwise.  "*" alone is a plain pattern. *)
Definition wildcardRule (path prefix suffix : string) : bool :=
  match prefix =? "", suffix =? "" with
  | true, true => plainRule path "*"
  | true, false => HasSuffix path suffix
  | false, true => HasPrefix path prefix
  | false, false =>
      if Contains prefix "/" then
        HasPrefix path prefix && HasSuffix path suffix
      else
        HasPrefix (filepath.Base path) prefix
        && HasSuffix (filepath.Base path) suffix
  end.

(** ** [NewGitIgnore], with [strings.TrimSpace] and the line scanner *)

(** [asciiSpace], the table of [strings.TrimSpace]: "\t", "\n", "\v",
    "\f", "\r" and " ". *)
Definition asciiSpace (c : ascii) : bool :=
  let n := nat_of_ascii c in
  ((9 <=? n)%nat && (n <=? 13)%nat) || (n =? 32)%nat.

(** [c >= utf8.RuneSelf] *)
Definition nonASCII (c : ascii) : bool := (128 <=? nat_of_ascii c)%nat.

(** Where the first loop of [TrimSpace] stops: at a byte that is not
    ASCII, with what is left handed to the Unicode trimming, or at the
    first ASCII byte that is not a space (or at the end). *)
Inductive trimStart :=
| AtNonASCII (rest : string)
| AtStart (rest : string).

Fixpoint skipSpace (s : string) : trimStart :=
  match s with
  | "" => AtStart ""
  | String c s' =>
      if nonASCII c then AtNonASCII s
      else if asciiSpace c then skipSpace s'
      else AtStart s
  end.

(** The second loop of [TrimSpace], run over [s[start:]]: the string
    without the ASCII spaces at its end. *)
Fixpoint dropSpaceRight (s : string) : string :=
  match s with
  | "" => ""
  | String c s' =>
      match dropSpaceRight s' with
      | "" => if asciiSpace c then "" else String c ""
      | kept => String c kept
      end
  end.

Fixpoint lastByte (s : string) : option ascii :=
  match s with
  | "" => None
  | String c "" => Some c
  | String _ s' => lastByte s'
  end.

(** What [os.Open] and the reads that follow give for a path. *)
Inductive opened :=
| NotExist
| OpenFailed
| Opened (data : string) (readFails : bool).

Section GitIgnoreFile.

(** What [NewGitIgnore] asks of its host: [strings.TrimFunc] and
    [strings.TrimRightFunc] with [unicode.IsSpace], which [TrimSpace]
    falls back on at a byte that is not ASCII; [filepath.Join] of two
    elements; and the file behind a path, with the bytes it holds and
    whether reading them ends in an error. *)
Variable trimFuncIsSpace : string -> string.
Variable trimRightFuncIsSpace : string -> string.
Variable Join : string -> string -> string.
Variable FS : Type.
Variable Open : FS -> string -> opened.

(** [strings.TrimSpace] *)
Definition TrimSpace (s : string) : string :=
  match skipSpace s with
  | AtNonASCII rest => trimFuncIsSpace rest
  | AtStart rest =>
      let kept := dropSpaceRight rest in
      match lastByte kept with
      | Some c => if nonASCII c then trimRightFuncIsSpace kept else kept
      | None => kept
      end
  end.

(** One [scanner.Scan()] on the input not yet consumed: the text of the
    line and the input left behind it, [None] when [Scan] returns
    false.  The scanner moves a line to the start of its buffer before
    it reads on, so each line meets the bound of the first. *)
Definition Scan (input : string) : option (string * string) :=
  match bufio.firstLine input with
  | None => None
  | Some text =>
      Some (text, match IndexByte input LF with
                  | Some i => drop (S i) input
                  | None => ""
                  end)
  end.

(** The loop of [NewGitIgnore] and the check of [scanner.Err()] behind
    it: the patterns gathered, or [None] for an error, which is
    [ErrTooLong] here, raised by a [Scan] that fails on input left.
    Every [Scan] that succeeds consumes a byte, so [fuel] beyond the
    length of the input is never used up. *)
Fixpoint scanPatterns (fuel : nat) (input : string) (patterns : list string)
  : option (list string) :=
  match fuel with
  | 0 => None
  | S fuel' =>
      match Scan input with
      | None => if input =? "" then Some patterns else None
      | Some (text, rest) =>
          let line := TrimSpace text in
          if (line =? "") || HasPrefix line "#" then
            scanPatterns fuel' rest patterns
          else
            scanPatterns fuel' rest (patterns ++ [line])%list
      end
  end.

(** [NewGitIgnore] creates a new GitIgnore processor; [None] is the
    error it returns with a nil result. *)
Definition NewGitIgnore (fs : FS) (rootDir : string) : option GitIgnore :=
  let gitignorePath := Join rootDir ".gitignore" in
  match Open fs gitignorePath with
  | NotExist => Some {| patterns := []; rootDir := rootDir |}
  | OpenFailed => None
  | Opened data readFails =>
      match scanPatterns (S (length data)) data [] with
      | Some patterns =>
          if readFails then None
          else Some {| patterns := patterns; rootDir := rootDir |}
      | None => None
      end
  end.

End GitIgnoreFile.

(** A line of the .gitignore file that the loop keeps as a pattern. *)
Definition keptLine (line : string) : bool :=
  negb ((line =? "") || HasPrefix line "#").

(** A line that does not fit the buffer of the scanner. *)
Definition tooLong (line : string) : bool :=
  (bufio.MaxScanTokenSize <=? N.of_nat (length line))%N.

(** [isHidden] checks if a file or directory is hidden. *)
Definition isHidden (name : string) : bool := HasPrefix name ".".

(** A .gitignore file written from a list of patterns, one to a line,
    the lines closed by "\n" or, for [dos], by "\r\n". *)
Fixpoint joinLines (dos : bool) (lines : list string) : string :=
  match lines with
  | [] => ""
  | line :: rest => line ++ (if dos then crlf else nl) ++ joinLines dos rest
  end.

(** A pattern that can be written to a line as it is: ASCII bytes, no
    "\n", no white space at either end, not empty, not a comment, and
    short enough for the scanner. *)
Definition writablePattern (p : string) : bool :=
  isASCII p
  && keptLine p
  && (Count p LF =? 0)%nat
  && match p with String c _ => negb (asciiSpace c) | "" => false end
  && match lastByte p with Some c => negb (asciiSpace c) | None => false end
  && (N.of_nat (length p) + 1 <? bufio.MaxScanTokenSize)%N.

(** The file system in memory as [NewGitIgnore] sees it: a file that is
    there opens and reads without error. *)
Definition memOpen (fs : memFS) (name : string) : opened :=
  match memRead fs name with
  | Some data => Opened data false
  | None => NotExist
  end.

(** [filepath.Join] on two clean elements. *)
Definition joinClean (dir name : string) : string := dir ++ "/" ++ name.

(** A line of [n] bytes [c]. *)
Fixpoint repeatByte (n : nat) (c : ascii) : string :=
  match n with
  | 0 => ""
  | S n' => String c (repeatByte n' c)
  end.

(** ** [Process], [NewProcessor] and [MergeConfig] *)

(** [models.Stats]; the counters are Go's [int], 64 bits wide. *)
Record Stats := {
  Processed : Z;
  Updated : Z;
  Skipped : Z;
  Errors : Z
}.

(** [n++] on an [int]: the sum wraps around at [2^63]. *)
Definition incr (n : Z) : Z := ((n + 1 + 2 ^ 63) mod 2 ^ 64 - 2 ^ 63)%Z.

(** [processor.Options] and [models.Config] with all their fields, and
    [Processor] with these.  [Options], [Config] and [Processor] above
    hold what [processFile] reads of them. *)
Record ProcessorOptions := {
  optDryRun : bool;
  optConfigFile : string;
  optVerbose : bool;
  optIncludeHidden : bool
}.

Record ModelsConfig := {
  FileTypes : list (string * CommentStyle);
  AdditionalIgnores : list string;
  IncludeGitIgnored : bool;
  IncludeHidden : bool;
  cfgDryRun : bool;
  cfgCommentPrefix : string;
  UpdateExistingPrefix : string
}.

Record ProcessorState := {
  pRootDir : string;
  pOptions : ProcessorOptions;
  pConfig : ModelsConfig;
  pFileTypes : list (string * CommentStyle);
  statistics : Stats
}.

Definition forProcessFile (p : ProcessorState) : Processor :=
  {| options := {| DryRun := optDryRun (pOptions p);
                   Verbose := optVerbose (pOptions p) |};
     config := {| CommentPrefix := cfgCommentPrefix (pConfig p) |};
     fileTypes := pFileTypes p |}.

(** The statistics after [p.statistics.Skipped++] and the like. *)
Definition countProcessed (s : Stats) : Stats :=
  {| Processed := incr (Processed s); Updated := Updated s;
     Skipped := Skipped s; Errors := Errors s |}.

Definition countUpdated (s : Stats) : Stats :=
  {| Processed := Processed s; Updated := incr (Updated s);
     Skipped := Skipped s; Errors := Errors s |}.

Definition countSkipped (s : Stats) : Stats :=
  {| Processed := Processed s; Updated := Updated s;
     Skipped := incr (Skipped s); Errors := Errors s |}.

Definition countError (s : Stats) : Stats :=
  {| Processed := Processed s; Updated := Updated s;
     Skipped := Skipped s; Errors := incr (Errors s) |}.

(** A directory tree as [filepath.WalkDir] finds it: a file (anything
    that is not a directory), or a directory with the entries
    [os.ReadDir] lists, in its order, and whether [os.ReadDir] ends in
    an error. *)
#[warnings="-register-all"]
Inductive node :=
| File (name : string)
| Dir (name : string) (readDirFails : bool) (entries : list node).

Definition nodeName (d : node) : string :=
  match d with
  | File name => name
  | Dir name _ _ => name
  end.

(** What a [fs.WalkDirFunc] is called with besides the path: an entry
    and no error, or the error of [os.ReadDir] on a directory entered,
    or the error of [os.Lstat] on the root, where the entry is nil. *)
Inductive walkCall :=
| Visit (isDir : bool) (name : string)
| ReadDirFailed (name : string)
| LstatFailed.

(** What a [fs.WalkDirFunc] returns when it is not nil:
    [filepath.SkipDir], [filepath.SkipAll], or another error. *)
Inductive walkErr :=
| SkipDir
| SkipAll
| Failed.

Section WalkDir.

Variable Join : string -> string -> string.
Variable State : Type.
Variable fn : State -> string -> walkCall -> option walkErr * State.

(** [walkDir] of [path/filepath]: the function is called on the entry;
    a directory is then read and its entries are walked in order.
    [SkipDir] from a directory skips its entries, [SkipDir] from an
    entry of a directory skips the entries after it, and any other
    error ends the walk. *)
Fixpoint walkDir (path : string) (d : node) (st : State)
  : option walkErr * State :=
  match d with
  | File name => fn st path (Visit false name)
  | Dir name readDirFails entries =>
      match fn st path (Visit true name) with
      | (Some SkipDir, st1) => (None, st1)
      | (Some err, st1) => (Some err, st1)
      | (None, st1) =>
          match (if readDirFails then fn st1 path (ReadDirFailed name)
                 else (None, st1)) with
          | (Some SkipDir, st2) => (None, st2)
          | (Some err, st2) => (Some err, st2)
          | (None, st2) =>
              (fix loop (dirs : list node) (st : State)
                 : option walkErr * State :=
                 match dirs with
                 | [] => (None, st)
                 | d1 :: rest =>
                     match walkDir (Join path (nodeName d1)) d1 st with
                     | (Some SkipDir, st') => (None, st')
                     | (Some err, st') => (Some err, st')
                     | (None, st') => loop rest st'
                     end
                 end) entries st2
          end
      end
  end.

(** The loop of [walkDir] over the entries of the directory [path]. *)
Definition walkEntries (path : string)
  : list node -> State -> option walkErr * State :=
  fix loop (dirs : list node) (st : State) : option walkErr * State :=
    match dirs with
    | [] => (None, st)
    | d1 :: rest =>
        match walkDir (Join path (nodeName d1)) d1 st with
        | (Some SkipDir, st') => (None, st')
        | (Some err, st') => (Some err, st')
        | (None, st') => loop rest st'
        end
    end.

(** [filepath.WalkDir]: [root] is walked when [os.Lstat] finds it
    ([tree] is what is there); [SkipDir] and [SkipAll] at the end are
    no error. *)
Definition WalkDir (root : string) (tree : option node) (st : State)
  : option walkErr * State :=
  match (match tree with
         | None => fn st root LstatFailed
         | Some d => walkDir root d st
         end) with
  | (Some SkipDir, st') | (Some SkipAll, st') => (None, st')
  | result => result
  end.

End WalkDir.

(** The errors of [Process]: the one of [NewGitIgnore], wrapped, and
    the one of the walk. *)
Inductive processError :=
| ErrLoadingGitIgnore
| ErrWalk.

Section Process.

Variable Rel : string -> string -> option string.
Variable unicodeToLower : string -> string.
Variable trimFuncIsSpace : string -> string.
Variable trimRightFuncIsSpace : string -> string.
Variable Join : string -> string -> string.
Variable FS : Type.
Variable ReadFile : FS -> string -> option string.
Variable WriteFile : FS -> string -> string -> FS * bool.
Variable Open : FS -> string -> opened.

(** The function [Process] hands to [filepath.WalkDir]; the state is
    [p.statistics] and the file system. *)
Definition visit (p : ProcessorState) (gitignore : GitIgnore)
    (st : Stats * FS) (path : string) (call : walkCall)
  : option walkErr * (Stats * FS) :=
  let (stats, fs) := st in
  match call with
  | ReadDirFailed _ | LstatFailed => (Some Failed, st)
  | Visit true name =>
      if negb (optIncludeHidden (pOptions p)) && isHidden name
      then (Some SkipDir, st)
      else (None, st)
  | Visit false name =>
      if negb (optIncludeHidden (pOptions p)) && isHidden name then
        (None, (countSkipped stats, fs))
      else if negb (IncludeGitIgnored (pConfig p))
              && ShouldIgnore Rel gitignore path then
        (None, (countSkipped stats, fs))
      else
        match Rel (pRootDir p) path with
        | None => (None, (countError stats, fs))
        | Some relPath =>
            let ext := ToLower unicodeToLower (filepath.Ext path) in
            match lookup ext (pFileTypes p) with
            | None => (None, (countSkipped stats, fs))
            | Some _ =>
                let stats := countProcessed stats in
                match processFile unicodeToLower FS ReadFile WriteFile
                        (forProcessFile p) fs path relPath with
                | ((_, Some _), fs') => (None, (countError stats, fs'))
                | ((true, None), fs') => (None, (countUpdated stats, fs'))
                | ((false, None), fs') => (None, (countSkipped stats, fs'))
                end
            end
        end
  end.

(** [Process] walks through the directory and processes files: the
    statistics and the error it returns, and the file system it
    leaves. *)
Definition Process (p : ProcessorState) (fs : FS) (tree : option node)
  : (Stats * option processError) * FS :=
  match NewGitIgnore trimFuncIsSpace trimRightFuncIsSpace Join FS Open
          fs (pRootDir p) with
  | None => ((statistics p, Some ErrLoadingGitIgnore), fs)
  | Some gitignore =>
      match WalkDir Join (Stats * FS) (visit p gitignore)
              (pRootDir p) tree (statistics p, fs) with
      | (Some _, (stats, fs')) => ((stats, Some ErrWalk), fs')
      | (None, (stats, fs')) => ((stats, None), fs')
      end
  end.

End Process.

(** The number of files in a tree. *)
Fixpoint countFiles (d : node) : nat :=
  match d with
  | File _ => 1
  | Dir _ _ entries =>
      (fix sum (dirs : list node) : nat :=
         match dirs with
         | [] => 0
         | d1 :: rest => countFiles d1 + sum rest
         end) entries
  end.

(** Every directory below and at [d] can be read. *)
Fixpoint readable (d : node) : bool :=
  match d with
  | File _ => true
  | Dir _ readDirFails entries =>
      negb readDirFails
      && (fix all (dirs : list node) : bool :=
            match dirs with
            | [] => true
            | d1 :: rest => readable d1 && all rest
            end) entries
  end.

Definition countFilesIn (dirs : list node) : nat :=
  fold_right (fun d n => countFiles d + n) 0 dirs.

Definition noStats : Stats :=
  {| Processed := 0; Updated := 0; Skipped := 0; Errors := 0 |}.

(** The counters after [k] files: none is negative, a file that is
    processed is one of those counted as updated, skipped or failed,
    and these three add up to [k]. *)
Definition counted (k : nat) (s : Stats) : Prop :=
  (0 <= Updated s <= Processed s)%Z
  /\ (0 <= Skipped s)%Z /\ (0 <= Errors s)%Z
  /\ (Processed s <= Updated s + Skipped s + Errors s)%Z
  /\ (Updated s + Skipped s + Errors s = Z.of_nat k)%Z.

(** ** [pkg/processor/config.go] and [NewProcessor] *)

(** [config.FileTypes = fileTypes], the other fields kept. *)
Definition withFileTypes (config : ModelsConfig)
    (fileTypes : list (string * CommentStyle)) : ModelsConfig :=
  {| FileTypes := fileTypes;
     AdditionalIgnores := AdditionalIgnores config;
     IncludeGitIgnored := IncludeGitIgnored config;
     IncludeHidden := IncludeHidden config;
     cfgDryRun := cfgDryRun config;
     cfgCommentPrefix := cfgCommentPrefix config;
     UpdateExistingPrefix := UpdateExistingPrefix config |}.

(** [MergeConfig] merges the provided configuration with the default
    file types: the defaults alone for a configuration without file
    types, and otherwise each default whose extension the configuration
    does not have.  A map is a list of entries with distinct keys, read
    by [lookup]; a new entry goes to its end. *)
Definition MergeConfig (config : ModelsConfig)
    (defaultFileTypes : list (string * CommentStyle)) : ModelsConfig :=
  if (List.length (FileTypes config) =? 0)%nat then
    withFileTypes config defaultFileTypes
  else
    withFileTypes config
      (fold_left
         (fun fileTypes '(ext, style) =>
            match lookup ext fileTypes with
            | Some _ => fileTypes
            | None => (fileTypes ++ [(ext, style)])%list
            end)
         defaultFileTypes (FileTypes config)).

Section Configuration.

(** [json.Unmarshal(data, config)]: the configuration with the fields
    the document sets, or [None] for an error. *)
Variable Unmarshal : string -> ModelsConfig -> option ModelsConfig.
Variable FS : Type.
Variable ReadFile : FS -> string -> option string.

(** [LoadConfig] loads configuration from the specified file; [None]
    is an error. *)
Definition LoadConfig (fs : FS) (configPath : string)
  : option ModelsConfig :=
  let config :=
    {| FileTypes := []; AdditionalIgnores := [];
       IncludeGitIgnored := false; IncludeHidden := false;
       cfgDryRun := false; cfgCommentPrefix := "File: ";
       UpdateExistingPrefix := "" |} in
  if configPath =? "" then Some config
  else match ReadFile fs configPath with
       | None => None
       | Some data => Unmarshal data config
       end.

(** [NewProcessor] creates a new processor; the warning it prints when
    the configuration cannot be loaded is not modelled. *)
Definition NewProcessor (fs : FS) (rootDir : string)
    (options : ProcessorOptions) : ProcessorState :=
  let fileTypes := initializeFileTypes in
  let default :=
    {| FileTypes := []; AdditionalIgnores := [];
       IncludeGitIgnored := false;
       IncludeHidden := optIncludeHidden options;
       cfgDryRun := optDryRun options; cfgCommentPrefix := "File: ";
       UpdateExistingPrefix := "" |} in
  let config :=
    if negb (optConfigFile options =? "") then
      match LoadConfig fs (optConfigFile options) with
      | Some config => config
      | None => default
      end
    else default in
  let config := MergeConfig config fileTypes in
  {| pRootDir := rootDir;
     pOptions := options;
     pConfig :=
       {| FileTypes := FileTypes config;
          AdditionalIgnores := AdditionalIgnores config;
          IncludeGitIgnored := IncludeGitIgnored config;
          IncludeHidden := optIncludeHidden options;
          cfgDryRun := optDryRun options;
          cfgCommentPrefix := cfgCommentPrefix config;
          UpdateExistingPrefix := UpdateExistingPrefix config |};
     pFileTypes := fileTypes;
     statistics := noStats |}.

End Configuration.

(** ** A project in memory *)

(** [filepath.Rel] for a clean path below a clean root. *)
Definition memRel (root path : string) : option string :=
  if HasPrefix path (root ++ "/") then Some (drop (length root + 1) path)
  else None.

Definition memTree : node :=
  Dir "repo" false
    [ Dir ".git" false [File "config"];
      File ".gitignore";
      File "main.go";
      File "notes.txt";
      Dir "vendor" false [File "lib.go"] ].

Definition memFiles : memFS :=
  [ ("/repo/.gitignore", "vendor/" ++ nl);
    ("/repo/.git/config", "[core]" ++ nl);
    ("/repo/main.go", "package main" ++ nl);
    ("/repo/notes.txt", "to do" ++ nl);
    ("/repo/vendor/lib.go", "package lib" ++ nl) ].

Definition memProcessor (dryRun includeHidden : bool) : ProcessorState :=
  NewProcessor (fun _ config => Some config) memFS memRead memFiles "/repo"
    {| optDryRun := dryRun; optConfigFile := "";
       optVerbose := false; optIncludeHidden := includeHidden |}.

Definition memProcess (dryRun includeHidden : bool)
  : (Stats * option processError) * memFS :=
  Process memRel (fun s => s) (fun s => s) (fun s => s) joinClean
    memFS memRead memWrite memOpen
    (memProcessor dryRun includeHidden) memFiles (Some memTree).

(** The first line as the specification defines it: the bytes up to the
    first "\n", or the whole content where there is none. *)
Definition specFirstLine (content : string) : string :=
  match IndexByte content LF with
  | Some i => take i content
  | None => content
  end.

(** * Facts about slices, prefixes and occurrences *)

Section StringFacts.

Lemma append_nil_r (s : string) : s ++ "" = s.
Proof. induction s as [|c s IH]; simpl; [reflexivity | now rewrite IH]. Qed.

Lemma append_assoc (a b c : string) : (a ++ b) ++ c = a ++ (b ++ c).
Proof. induction a as [|x a IH]; simpl; [reflexivity | now rewrite IH]. Qed.

Lemma length_append (a b : string) :
  length (a ++ b) = length a + length b.
Proof. induction a as [|x a IH]; simpl; [reflexivity | now rewrite IH]. Qed.

Lemma take_append (a b : string) : take (length a) (a ++ b) = a.
Proof. induction a as [|x a IH]; simpl; [now destruct b | now rewrite IH]. Qed.

Lemma drop_append (a b : string) : drop (length a) (a ++ b) = b.
Proof. induction a as [|x a IH]; simpl; [reflexivity | exact IH]. Qed.

Lemma take_drop (n : nat) (s : string) : take n s ++ drop n s = s.
Proof.
  revert s; induction n as [|n IH]; intros [|c s]; simpl; try reflexivity.
  now rewrite IH.
Qed.

Lemma take_0 (s : string) : take 0 s = "".
Proof. now destruct s. Qed.

Lemma length_take (n : nat) (s : string) :
  n <= length s -> length (take n s) = n.
Proof.
  revert s; induction n as [|n IH]; intros [|c s]; simpl; intros H;
    try reflexivity; try lia.
  rewrite IH; [reflexivity | lia].
Qed.

Lemma append_inj_l (a b c d : string) :
  length a = length c -> a ++ b = c ++ d -> a = c /\ b = d.
Proof.
  revert c; induction a as [|x a IH]; intros [|y c]; simpl; intros L E;
    try discriminate.
  - now split.
  - injection E as -> E. injection L as L.
    destruct (IH c L E) as [-> ->]. now split.
Qed.

(** [HasPrefix] and [HasSuffix] as decompositions. *)

Lemma HasPrefix_append (p r : string) : HasPrefix (p ++ r) p = true.
Proof.
  unfold HasPrefix. rewrite take_append, String.eqb_refl, length_append.
  rewrite andb_true_r. apply Nat.leb_le. lia.
Qed.

Lemma HasPrefix_true (s p : string) :
  HasPrefix s p = true <-> exists r, s = p ++ r.
Proof.
  split.
  - unfold HasPrefix. intros H. apply andb_true_iff in H as [_ H].
    apply String.eqb_eq in H. exists (drop (length p) s).
    rewrite <- H at 1. symmetry. apply take_drop.
  - intros [r ->]. apply HasPrefix_append.
Qed.

Lemma HasPrefix_nil (s : string) : HasPrefix s "" = true.
Proof. apply HasPrefix_true. now exists s. Qed.

Lemma HasSuffix_append (r p : string) : HasSuffix (r ++ p) p = true.
Proof.
  unfold HasSuffix. rewrite length_append.
  replace (length r + length p - length p) with (length r) by lia.
  rewrite drop_append, String.eqb_refl, andb_true_r.
  apply Nat.leb_le. lia.
Qed.

Lemma HasSuffix_true (s p : string) :
  HasSuffix s p = true <-> exists r, s = r ++ p.
Proof.
  split.
  - unfold HasSuffix. intros H. apply andb_true_iff in H as [_ H].
    apply String.eqb_eq in H. exists (take (length s - length p) s).
    rewrite <- H at 2. symmetry. apply take_drop.
  - intros [r ->]. apply HasSuffix_append.
Qed.

(** A string with the suffix "/" is its slice without the last byte,
    followed by "/". *)
Lemma HasSuffix_slash (pattern : string) :
  HasSuffix pattern "/" = true ->
  take (length pattern - 1) pattern ++ "/" = pattern.
Proof.
  unfold HasSuffix. intros H. apply andb_true_iff in H as [_ H].
  apply String.eqb_eq in H. simpl in H. rewrite <- H at 1.
  apply take_drop.
Qed.

(** [Index]: the first occurrence. *)

Lemma Index_Some (s sub : string) (j : nat) :
  Index s sub = Some j ->
  j <= length s
  /\ s = take j s ++ sub ++ drop (j + length sub) s
  /\ forall i, i < j -> HasPrefix (drop i s) sub = false.
Proof.
  revert j; induction s as [|c s IH]; intros j; simpl.
  - destruct (HasPrefix "" sub) eqn:P; [|discriminate].
    intros [= <-]. apply HasPrefix_true in P as [r P].
    destruct sub; [|discriminate]. simpl.
    repeat split; [lia | intros i Hi; lia].
  - destruct (HasPrefix (String c s) sub) eqn:P.
    + intros [= <-]. apply HasPrefix_true in P as [r P].
      split; [lia|]. split; [|intros i Hi; lia].
      simpl. rewrite P at 2. rewrite drop_append. exact P.
    + destruct (Index s sub) as [k|] eqn:E; [|discriminate].
      simpl. intros [= <-]. destruct (IH k eq_refl) as (L & D & F).
      split; [lia|]. split.
      * simpl. now rewrite <- D.
      * intros [|i] Hi; simpl; [exact P | apply F; lia].
Qed.

Lemma Index_None (s sub a b : string) :
  Index s sub = None -> s <> a ++ sub ++ b.
Proof.
  revert a; induction s as [|c s IH]; intros a; simpl.
  - destruct (HasPrefix "" sub) eqn:P; [discriminate|]. intros _ E.
    destruct a; simpl in E; [|discriminate].
    rewrite E, HasPrefix_append in P. discriminate.
  - destruct (HasPrefix (String c s) sub) eqn:P; [discriminate|].
    destruct (Index s sub) eqn:E; [discriminate|]. intros _ H.
    destruct a as [|x a]; simpl in H.
    + rewrite H, HasPrefix_append in P. discriminate.
    + injection H as _ H. exact (IH a eq_refl H).
Qed.

Lemma Contains_true (s sub : string) :
  Contains s sub = true <-> exists a b, s = a ++ sub ++ b.
Proof.
  unfold Contains. split.
  - destruct (Index s sub) as [j|] eqn:E; [|discriminate]. intros _.
    apply Index_Some in E as (_ & D & _). eauto.
  - intros (a & b & E). destruct (Index s sub) eqn:I; [reflexivity|].
    exfalso. exact (Index_None _ _ a b I E).
Qed.


Lemma Index_unfold (s sub : string) :
  Index s sub =
  if HasPrefix s sub then Some 0
  else match s with
       | "" => None
       | String _ s' => option_map S (Index s' sub)
       end.
Proof. now destruct s. Qed.

Lemma Index_prefix (old rest : string) : Index (old ++ rest) old = Some 0.
Proof. now rewrite Index_unfold, HasPrefix_append. Qed.

(** Replacing an occurrence that starts the string. *)
Lemma Replace1_prefix (old new rest : string) :
  Replace1 (old ++ rest) old new = new ++ rest.
Proof.
  unfold Replace1. rewrite Index_prefix, take_0. simpl.
  now rewrite drop_append.
Qed.


End StringFacts.

(** * Facts about counting and splitting *)

Section CountFacts.

Lemma Count_append (a b : string) (c : ascii) :
  Count (a ++ b) c = Count a c + Count b c.
Proof.
  induction a as [|x a IH]; simpl; [reflexivity | rewrite IH; lia].
Qed.

(** An occurrence of [sub] in [s] brings its bytes along. *)
Lemma Count_occurrence (s a sub b : string) (c : ascii) :
  s = a ++ sub ++ b -> Count sub c <= Count s c.
Proof. intros ->. rewrite !Count_append. lia. Qed.

Lemma Count_pos_Contains (s : string) (c : ascii) :
  0 < Count s c -> Contains s (String c "") = true.
Proof.
  induction s as [|x s IH]; simpl; [lia|].
  destruct (Ascii.eqb_spec x c) as [->|N]; intros H.
  - apply Contains_true. now exists "", s.
  - apply Contains_true. apply IH in H. apply Contains_true in H.
    destruct H as (a & b & ->). now exists (String x a), b.
Qed.

Lemma Split_length (s : string) (sep : ascii) :
  List.length (Split s sep) = S (Count s sep).
Proof.
  induction s as [|x s IH]; simpl; [reflexivity|].
  destruct (Ascii.eqb x sep); simpl.
  - now rewrite IH.
  - destruct (Split s sep); simpl in *; [discriminate | exact IH].
Qed.

Lemma Split_In_Count (s x : string) (sep c : ascii) :
  In x (Split s sep) -> Count x c <= Count s c.
Proof.
  revert x; induction s as [|a s IH]; intros x; simpl.
  - intros [<-|[]]. simpl. lia.
  - destruct (Ascii.eqb a sep).
    + intros [<-|H]; simpl; [lia|]. apply IH in H. lia.
    + destruct (Split s sep) as [|piece pieces] eqn:E.
      * intros [<-|[]]. simpl. lia.
      * intros [<-|H]; simpl.
        -- specialize (IH piece (or_introl eq_refl)). lia.
        -- specialize (IH x (or_intror H)). lia.
Qed.

(** With other than one separator, the wildcard block does not
    return. *)
Lemma matchWildcard_None (path pattern : string) :
  Count pattern "*" <> 1 -> matchWildcard path pattern = None.
Proof.
  intros H. unfold matchWildcard.
  pose proof (Split_length pattern "*") as L.
  destruct (Split pattern "*") as [|p [|q [|r l]]]; simpl in L;
    try reflexivity.
  injection L as L. congruence.
Qed.

End CountFacts.

(** * The pattern matcher *)

Section PatternMatcher.

Lemma matchGitIgnorePattern_rooted (path rest : string) :
  matchGitIgnorePattern path (String "/" rest) = rootedRule path rest.
Proof. reflexivity. Qed.

Lemma rootedRule_true (path rest : string) :
  rootedRule path rest = true <->
  path = rest \/ exists tail, path = rest ++ "/" ++ tail.
Proof.
  unfold rootedRule. rewrite orb_true_iff, String.eqb_eq, HasPrefix_true.
  split; (intros [H|[tail H]]; [now left | right; exists tail]).
  - now rewrite <- append_assoc.
  - now rewrite append_assoc.
Qed.

Lemma matchGitIgnorePattern_directory (path pattern : string) :
  HasPrefix pattern "/" = false ->
  HasSuffix pattern "/" = true ->
  matchGitIgnorePattern path pattern
  = directoryRule path (take (length pattern - 1) pattern).
Proof.
  intros R D. unfold matchGitIgnorePattern, directoryRule.
  rewrite R, D. now rewrite (HasSuffix_slash pattern D).
Qed.

Lemma excluded_true (patterns : list string) (path : string) :
  excluded patterns path = true <->
  exists pattern, In pattern patterns /\ HasPrefix pattern "!" = false
                  /\ matchGitIgnorePattern path pattern = true.
Proof.
  unfold excluded. rewrite existsb_exists.
  split; intros (p & I & H); exists p; split; try assumption.
  - apply andb_true_iff in H as [H1 H2].
    now apply negb_true_iff in H1.
  - destruct H as [-> ->]. reflexivity.
Qed.

Lemma reincluded_true (patterns : list string) (path : string) :
  reincluded patterns path = true <->
  exists pattern, In pattern patterns /\ HasPrefix pattern "!" = true
                  /\ matchGitIgnorePattern path (drop 1 pattern) = true.
Proof.
  unfold reincluded. rewrite existsb_exists.
  split; intros (p & I & H); exists p; split; try assumption.
  - now apply andb_true_iff in H.
  - destruct H as [-> ->]. reflexivity.
Qed.

Lemma firstPass_excluded (patterns : list string) (relPath : string) :
  firstPass relPath patterns = excluded patterns relPath.
Proof.
  induction patterns as [|p l IH]; simpl; [reflexivity|].
  destruct (HasPrefix p "!"); simpl; [exact IH|].
  destruct (matchGitIgnorePattern relPath p); [reflexivity | exact IH].
Qed.

Lemma secondPass_reincluded (patterns : list string) (relPath : string) :
  secondPass relPath patterns = negb (reincluded patterns relPath).
Proof.
  induction patterns as [|p l IH]; simpl; [reflexivity|].
  destruct (HasPrefix p "!"); simpl; [|exact IH].
  match goal with
  | |- context [matchGitIgnorePattern ?a ?b] =>
      destruct (matchGitIgnorePattern a b)
  end; [reflexivity | exact IH].
Qed.

End PatternMatcher.

(** ** Patterns with several asterisks *)

Section Asterisks.

Variables path pattern : string.
Hypothesis several : 1 < Count pattern "*".

Lemma several_not_wildcard :
  HasPrefix pattern "/" = false ->
  HasSuffix pattern "/" = false ->
  HasPrefix pattern "!" = false ->
  matchGitIgnorePattern path pattern = plainRule path pattern.
Proof.
  intros R D N. unfold matchGitIgnorePattern. rewrite R, D, N.
  rewrite matchWildcard_None by lia.
  now destruct (Contains pattern "*").
Qed.

(** Whatever rule takes the pattern, a match puts the pattern's
    asterisks into the path. *)
Lemma several_need_asterisk :
  Contains path "*" = false -> matchGitIgnorePattern path pattern = false.
Proof.
  intros Hp. destruct (matchGitIgnorePattern path pattern) eqn:M;
    [exfalso | reflexivity].
  assert (Z : Count path "*" = 0).
  { destruct (Count path "*") eqn:E; [reflexivity|].
    rewrite Count_pos_Contains in Hp by lia. discriminate. }
  assert (O : forall a sub b, path = a ++ sub ++ b -> Count sub "*" = 0).
  { intros a sub b E. pose proof (Count_occurrence _ _ _ _ "*"%char E). lia. }
  unfold matchGitIgnorePattern in M.
  destruct (HasPrefix pattern "/") eqn:R.
  - apply HasPrefix_true in R as [rest ->]. simpl in M, several.
    apply rootedRule_true in M as [->|[tail ->]]; [lia|].
    specialize (O "" rest ("/" ++ tail) eq_refl). lia.
  - destruct (HasSuffix pattern "/") eqn:D.
    + pose proof (HasSuffix_slash pattern D) as E.
      set (dirName := take (length pattern - 1) pattern) in *.
      assert (C : 1 < Count dirName "*").
      { rewrite <- E, Count_append in several. simpl in several. lia. }
      repeat rewrite orb_true_iff in M.
      destruct M as [[[M|M]|M]|M].
      * apply String.eqb_eq in M. subst path. lia.
      * apply HasPrefix_true in M as [r M]. rewrite <- E in M.
        rewrite append_assoc in M.
        specialize (O "" dirName _ M). lia.
      * apply HasSuffix_true in M as [r M].
        specialize (O (r ++ "/") dirName "").
        rewrite append_nil_r, append_assoc in O.
        specialize (O M). lia.
      * apply Contains_true in M as (a & b & M).
        specialize (O (a ++ "/") dirName ("/" ++ b)).
        rewrite !append_assoc in O. rewrite !append_assoc in M.
        specialize (O M). lia.
    + destruct (HasPrefix pattern "!"); [discriminate|].
      rewrite matchWildcard_None in M by lia.
      assert (X : matchExact path pattern = true)
        by now destruct (Contains pattern "*").
      unfold matchExact in X. destruct (Contains pattern "/").
      * apply rootedRule_true in X as [->|[tail ->]]; [lia|].
        specialize (O "" pattern ("/" ++ tail) eq_refl). lia.
      * apply existsb_exists in X as (part & I & X).
        apply String.eqb_eq in X. subst part.
        pose proof (Split_In_Count _ _ "/"%char "*"%char I). lia.
Qed.

End Asterisks.

(** * The claims on the pattern matcher *)

(** The rooted rule as the code has it.  A pattern with a leading "/"
    is anchored at the root: once the slash is stripped, it matches a
    path when the path is the rest of the pattern or starts with that
    rest followed by "/".  So "/dist/" does not match
    "src/dist/file.js", and "/dist" matches "dist/file.js". *)
Theorem rooted_pattern_anchored :
  (forall path rest,
      matchGitIgnorePattern path (String "/" rest) = true
      <-> path = rest \/ exists tail, path = rest ++ "/" ++ tail)
  /\ matchGitIgnorePattern "src/dist/file.js" "/dist/" = false
  /\ matchGitIgnorePattern "dist/file.js" "/dist" = true.
Proof.
  split; [|split; reflexivity].
  intros path rest. rewrite matchGitIgnorePattern_rooted.
  apply rootedRule_true.
Qed.

(** C1 (the code departs from it).  The rooted branch strips the
    leading slash and returns; the trailing slash of "/dist/" stays, so
    the pattern is compared as "dist/".  A rooted pattern with a
    trailing slash matches only the name followed by "/" and paths that
    start with the name followed by "//": "/dist/" does not match
    "dist/file.js", which "dist/" and "/dist" both match. *)
Theorem rooted_directory_pattern_dead :
  (forall path name,
      matchGitIgnorePattern path (String "/" (name ++ "/")) = true ->
      path = name ++ "/" \/ exists tail, path = name ++ "//" ++ tail)
  /\ matchGitIgnorePattern "dist/file.js" "/dist/" = false
  /\ matchGitIgnorePattern "dist/file.js" "dist/" = true
  /\ matchGitIgnorePattern "dist/file.js" "/dist" = true.
Proof.
  split; [|repeat split].
  intros path name M. rewrite matchGitIgnorePattern_rooted in M.
  apply rootedRule_true in M as [->|[tail ->]]; [now left|].
  right. exists tail. now rewrite !append_assoc.
Qed.

(** C2.  [ShouldIgnore] excludes, then includes again: it is false when
    no pattern without "!" matches the path, and otherwise false exactly
    when a pattern with "!" matches once the marker is stripped.  With
    the patterns "build/" and "!build/keep.txt", "build/keep.txt" is not
    ignored and "build/other.txt" is. *)
Theorem ShouldIgnore_two_pass :
  (forall Rel gi path,
      ShouldIgnore Rel gi path
      = match Rel (rootDir gi) path with
        | None => false
        | Some relPath =>
            excluded (patterns gi) relPath
            && negb (reincluded (patterns gi) relPath)
        end)
  /\ (forall patterns path,
         excluded patterns path = true
         <-> exists pattern,
             In pattern patterns /\ HasPrefix pattern "!" = false
             /\ matchGitIgnorePattern path pattern = true)
  /\ (forall patterns path,
         reincluded patterns path = true
         <-> exists pattern,
             In pattern patterns /\ HasPrefix pattern "!" = true
             /\ matchGitIgnorePattern path (drop 1 pattern) = true)
  /\ (forall Rel root path,
         let gi := {| patterns := ["build/"; "!build/keep.txt"];
                      rootDir := root |} in
         (Rel root path = Some "build/keep.txt" ->
          ShouldIgnore Rel gi path = false)
         /\ (Rel root path = Some "build/other.txt" ->
             ShouldIgnore Rel gi path = true)).
Proof.
  split; [|split; [exact excluded_true|split; [exact reincluded_true|]]].
  - intros Rel gi path. unfold ShouldIgnore.
    destruct (Rel (rootDir gi) path) as [relPath|]; [|reflexivity].
    unfold filepath.ToSlash.
    rewrite firstPass_excluded, secondPass_reincluded.
    now destruct (excluded (patterns gi) relPath).
  - intros Rel root path gi. unfold ShouldIgnore. simpl.
    split; intros ->; reflexivity.
Qed.

(** C6 (as amended).  A pattern with a trailing "/" and no leading "/"
    matches a directory name at any depth: with the trailing slash
    stripped to [dirName], it matches when the path is [dirName], starts
    with [dirName + "/"], ends with ["/" + dirName] or contains
    ["/" + dirName + "/"].  So "node_modules/" matches
    "node_modules/pkg/index.js" and "a/node_modules/b.js". *)
Theorem directory_pattern_any_depth :
  (forall path pattern,
      HasSuffix pattern "/" = true ->
      HasPrefix pattern "/" = false ->
      let dirName := take (length pattern - 1) pattern in
      matchGitIgnorePattern path pattern = true
      <-> (path = dirName
           \/ (exists tail, path = dirName ++ "/" ++ tail)
           \/ (exists head, path = head ++ "/" ++ dirName)
           \/ (exists head tail, path = head ++ "/" ++ dirName ++ "/" ++ tail)))
  /\ matchGitIgnorePattern "node_modules/pkg/index.js" "node_modules/" = true
  /\ matchGitIgnorePattern "a/node_modules/b.js" "node_modules/" = true.
Proof.
  split; [|split; reflexivity].
  intros path pattern D R dirName.
  rewrite (matchGitIgnorePattern_directory path pattern R D).
  fold dirName. unfold directoryRule.
  rewrite !orb_true_iff, String.eqb_eq, HasPrefix_true, HasSuffix_true,
    Contains_true.
  split.
  - intros [[[H|[t H]]|[h H]]|(h & t & H)].
    + now left.
    + right; left. exists t. now rewrite <- append_assoc.
    + right; right; left. now exists h.
    + right; right; right. exists h, t. rewrite H.
      now rewrite !append_assoc.
  - intros [H|[[t H]|[[h H]|(h & t & H)]]].
    + now left; left; left.
    + left; left; right. exists t. now rewrite append_assoc.
    + left; right. now exists h.
    + right. exists h, t. rewrite H. now rewrite !append_assoc.
Qed.

(** C6 as the specification words it fails on a pattern that also has a
    leading "/": the rooted rule takes "/dist/", so the path "/dist",
    which is the pattern without its trailing slash, is not matched. *)
Lemma directory_rule_not_for_rooted :
  HasSuffix "/dist/" "/" = true
  /\ directoryRule "/dist" (take (length "/dist/" - 1) "/dist/") = true
  /\ matchGitIgnorePattern "/dist" "/dist/" = false.
Proof. repeat split. Qed.

(** C8 (as amended).  A pattern with more than one "*" is never handled
    as a wildcard.  When it has no leading "/", trailing "/" or leading
    "!", it gets the plain-pattern treatment, its asterisks taken
    literally; and under every rule it matches no path free of "*". *)
Theorem several_asterisks_literal (path pattern : string) :
  1 < Count pattern "*" ->
  matchWildcard path pattern = None
  /\ (HasPrefix pattern "/" = false ->
      HasSuffix pattern "/" = false ->
      HasPrefix pattern "!" = false ->
      matchGitIgnorePattern path pattern = plainRule path pattern)
  /\ (Contains path "*" = false ->
      matchGitIgnorePattern path pattern = false).
Proof.
  intros H. split; [apply matchWildcard_None; lia|]. split.
  - now apply several_not_wildcard.
  - now apply several_need_asterisk.
Qed.

Lemma several_asterisks_literal_witness :
  1 < Count "src/*/gen*.go" "*"
  /\ matchGitIgnorePattern "src/a/gen_b.go" "src/*/gen*.go" = false.
Proof.
  split; [simpl; lia|].
  apply (several_asterisks_literal "src/a/gen_b.go" "src/*/gen*.go");
    [simpl; lia | reflexivity].
Defined.

(** C8 as the specification words it fails: the plain treatment compares
    the asterisks as ordinary bytes, so a path that carries them is
    matched. *)
Lemma several_asterisks_may_match :
  1 < Count "a*b*c" "*"
  /\ matchGitIgnorePattern "dir/a*b*c" "a*b*c" = true.
Proof. split; [simpl; lia | reflexivity]. Qed.

(** * The first line the scanner yields *)

Section FirstLine.

Lemma IndexByte_append (line rest : string) (c : ascii) :
  IndexByte line c = None ->
  IndexByte (line ++ String c rest) c = Some (length line).
Proof.
  induction line as [|a line IH]; simpl.
  - now rewrite Ascii.eqb_refl.
  - destruct (Ascii.eqb a c); [discriminate|].
    destruct (IndexByte line c); [discriminate|]. intros _.
    now rewrite IH.
Qed.

Lemma dropCR_append_CR (line : string) :
  bufio.dropCR (line ++ String CR "") = line.
Proof.
  induction line as [|a line IH]; [reflexivity|].
  simpl. rewrite IH. now destruct line.
Qed.

Lemma IndexByte_Some (s : string) (c : ascii) (i : nat) :
  IndexByte s c = Some i ->
  s = take i s ++ String c (drop (S i) s)
  /\ IndexByte (take i s) c = None
  /\ length (take i s) = i.
Proof.
  revert i; induction s as [|a s IH]; intros i; simpl; [discriminate|].
  destruct (Ascii.eqb_spec a c) as [->|N].
  - intros [= <-]. now repeat split.
  - destruct (IndexByte s c) as [k|]; [|discriminate].
    simpl. intros [= <-]. destruct (IH k eq_refl) as (E & F & L).
    repeat split.
    + change (String a s = String a (take k s ++ String c (drop (S k) s))).
      now rewrite <- E.
    + change (IndexByte (String a (take k s)) c = None). simpl.
      destruct (Ascii.eqb_spec a c); [contradiction|]. now rewrite F.
    + simpl. now rewrite L.
Qed.

Lemma take_S_append (l r : string) (c : ascii) :
  take (S (length l)) (l ++ String c r) = l ++ String c "".
Proof.
  induction l as [|a l IH]; [now destruct r|].
  change (String a (take (S (length l)) (l ++ String c r))
          = String a (l ++ String c "")).
  now rewrite IH.
Qed.

(** [dropCR] returns its argument or drops a final "\r". *)
Lemma dropCR_cases (data : string) :
  bufio.dropCR data = data
  \/ data = bufio.dropCR data ++ String CR "".
Proof.
  induction data as [|a data IH]; [now left|].
  destruct data as [|b data].
  - simpl. destruct (Ascii.eqb_spec a CR) as [->|N]; [now right | now left].
  - change (bufio.dropCR (String a (String b data)))
      with (String a (bufio.dropCR (String b data))).
    destruct IH as [IH|IH]; [left; now rewrite IH|].
    right.
    change (String a (String b data)
            = String a (bufio.dropCR (String b data) ++ String CR "")).
    now rewrite <- IH.
Qed.

(** A line closed by "\n" within the buffer is the token, less one
    "\r" at its end. *)
Lemma firstLine_terminated (line rest : string) :
  IndexByte line LF = None ->
  (N.of_nat (length line) < bufio.MaxScanTokenSize)%N ->
  bufio.firstLine (line ++ nl ++ rest) = Some (bufio.dropCR line).
Proof.
  intros I L. unfold bufio.firstLine, nl. simpl append.
  rewrite (IndexByte_append line rest LF I).
  apply N.ltb_lt in L. rewrite L.
  change (S (length line)) with (length (String LF "") + length line).
  rewrite Nat.add_comm, <- length_append.
  replace (line ++ String LF rest) with ((line ++ String LF "") ++ rest)
    by now rewrite append_assoc.
  rewrite take_append. unfold bufio.ScanLines. simpl andb.
  rewrite (IndexByte_append line "" LF I).
  now rewrite take_append.
Qed.


(** No token for empty content, nor when the buffer fills up before a
    newline shows. *)
Lemma firstLine_empty : bufio.firstLine "" = None.
Proof. reflexivity. Qed.

Lemma firstLine_too_long (line rest : string) :
  IndexByte line LF = None ->
  (bufio.MaxScanTokenSize <= N.of_nat (length line))%N ->
  bufio.firstLine (line ++ nl ++ rest) = None.
Proof.
  intros I L. unfold bufio.firstLine, nl. simpl append.
  rewrite (IndexByte_append line rest LF I).
  apply N.ltb_ge in L. now rewrite L.
Qed.

(** The scanner's line starts the content, and a line end follows it. *)
Lemma firstLine_Some (content line : string) :
  bufio.firstLine content = Some line ->
  content <> ""
  /\ exists eol rest, content = line ++ eol ++ rest
       /\ (eol = nl \/ eol = crlf
           \/ (rest = "" /\ (eol = "" \/ eol = String CR ""))).
Proof.
  unfold bufio.firstLine. intros H.
  destruct (IndexByte content LF) as [i|] eqn:I.
  - destruct (N.of_nat i <? bufio.MaxScanTokenSize)%N; [|discriminate].
    apply IndexByte_Some in I as (E & F & Li).
    set (l := take i content) in *.
    assert (T : take (S i) content = l ++ nl).
    { rewrite <- Li. rewrite E at 1. apply take_S_append. }
    rewrite T in H. unfold bufio.ScanLines in H. simpl andb in H.
    unfold nl in H. rewrite (IndexByte_append l "" LF F) in H.
    rewrite take_append in H. injection H as <-.
    split; [rewrite E; now destruct l|].
    destruct (dropCR_cases l) as [D|D].
    + exists nl, (drop (S i) content). split; [|now left].
      now rewrite D.
    + exists crlf, (drop (S i) content). split; [|now right; left].
      rewrite E at 1. rewrite D at 1. now rewrite append_assoc.
  - destruct (N.of_nat (length content) <? bufio.MaxScanTokenSize)%N;
      [|discriminate].
    unfold bufio.ScanLines in H. rewrite I in H.
    assert (NE : content <> "") by (intros ->; discriminate).
    replace (true && (length content =? 0)%nat) with false in H
      by (destruct content; [contradiction | reflexivity]).
    injection H as <-. split; [exact NE|].
    destruct (dropCR_cases content) as [D|D].
    + exists "", "". rewrite D. simpl. rewrite append_nil_r.
      split; [reflexivity | right; right; split; [|left]; reflexivity].
    + exists (String CR ""), "". split; [|auto]. exact D.
Qed.

End FirstLine.

(** * The header rewriter *)

Section Rewriter.

Variables (relPath commentPrefix : string) (commentStyle : CommentStyle).

Lemma Replace1_ReplacedFirst (s old new : string) :
  ReplacedFirst old new s (Replace1 s old new).
Proof.
  unfold Replace1. destruct (Index s old) as [j|] eqn:I.
  - apply Index_Some in I as (L & D & F).
    pose proof (length_take j s L) as La.
    remember (take j s) as a. remember (drop (j + length old) s) as b.
    rewrite D at 1. apply replaced_at.
    intros i Hi. rewrite <- D. apply F. lia.
  - apply replaced_nowhere. intros a b. now apply Index_None.
Qed.

Lemma hasPathComment_true (line : string) :
  hasPathComment line commentStyle commentPrefix = true <->
  (Contains line (LineComment commentStyle) = true
   /\ Contains line commentPrefix = true)
  \/ (Contains line (BlockCommentStart commentStyle) = true
      /\ Contains line commentPrefix = true).
Proof.
  unfold hasPathComment. now rewrite orb_true_iff, !andb_true_iff.
Qed.

Lemma commentText_usable :
  commentText commentStyle commentPrefix relPath = None
  <-> usable commentStyle = false.
Proof.
  unfold commentText, usable.
  destruct ((Preferred commentStyle =? "line")
            && negb (LineComment commentStyle =? "")); simpl;
    [split; discriminate|].
  destruct (negb (BlockCommentStart commentStyle =? "")
            && negb (BlockCommentEnd commentStyle =? ""));
    split; try discriminate; reflexivity.
Qed.

(** The three ways out of [rewrite] once the header line is there. *)

Lemma rewrite_detected (content header line : string) :
  commentText commentStyle commentPrefix relPath = Some header ->
  bufio.firstLine content = Some line ->
  hasPathComment line commentStyle commentPrefix = true ->
  rewrite content relPath commentStyle commentPrefix
  = NewContent (Replace1 content (line ++ nl) header) true.
Proof. unfold rewrite. now intros -> -> ->. Qed.

Lemma rewrite_prepended (content header line : string) :
  commentText commentStyle commentPrefix relPath = Some header ->
  bufio.firstLine content = Some line ->
  hasPathComment line commentStyle commentPrefix = false ->
  rewrite content relPath commentStyle commentPrefix
  = NewContent (header ++ content) true.
Proof. unfold rewrite. now intros -> -> ->. Qed.

Lemma rewrite_no_line (content header : string) :
  commentText commentStyle commentPrefix relPath = Some header ->
  bufio.firstLine content = None ->
  rewrite content relPath commentStyle commentPrefix
  = NewContent header true.
Proof. unfold rewrite. now intros -> ->. Qed.

(** The header line carries the tokens its detection looks for. *)
Lemma commentText_detected (line : string) :
  commentText commentStyle commentPrefix relPath = Some (line ++ nl) ->
  hasPathComment line commentStyle commentPrefix = true.
Proof.
  unfold commentText. intros H. apply hasPathComment_true.
  assert (R : forall x y, x ++ nl = y ++ nl -> x = y).
  { intros x y E.
    assert (L : length x = length y).
    { apply (f_equal length) in E. rewrite !length_append in E. lia. }
    now destruct (append_inj_l _ _ _ _ L E). }
  destruct ((Preferred commentStyle =? "line")
            && negb (LineComment commentStyle =? "")).
  - left.
    assert (E : (LineComment commentStyle ++ " " ++ commentPrefix
                 ++ relPath) ++ nl = line ++ nl)
      by (injection H as <-; now rewrite !append_assoc).
    apply R in E. subst line. split; apply Contains_true.
    + now exists "", (" " ++ commentPrefix ++ relPath).
    + exists (LineComment commentStyle ++ " "), relPath.
      now rewrite !append_assoc.
  - destruct (negb (BlockCommentStart commentStyle =? "")
              && negb (BlockCommentEnd commentStyle =? ""));
      [|discriminate].
    right.
    assert (E : (BlockCommentStart commentStyle ++ " " ++ commentPrefix
                 ++ relPath ++ " " ++ BlockCommentEnd commentStyle)
                ++ nl = line ++ nl)
      by (injection H as <-; now rewrite !append_assoc).
    apply R in E. subst line. split; apply Contains_true.
    + now exists "", (" " ++ commentPrefix ++ relPath ++ " "
                      ++ BlockCommentEnd commentStyle).
    + exists (BlockCommentStart commentStyle ++ " "),
        (relPath ++ " " ++ BlockCommentEnd commentStyle).
      now rewrite !append_assoc.
Qed.

(** A header found on a first line that "\n" closes is replaced where
    it stands, and what follows the line is kept. *)
Lemma rewrite_header_line (line rest header : string) :
  commentText commentStyle commentPrefix relPath = Some header ->
  IndexByte line LF = None ->
  bufio.dropCR line = line ->
  (N.of_nat (length line) < bufio.MaxScanTokenSize)%N ->
  hasPathComment line commentStyle commentPrefix = true ->
  rewrite (line ++ nl ++ rest) relPath commentStyle commentPrefix
  = NewContent (header ++ rest) true.
Proof.
  intros H I D L P.
  rewrite (rewrite_detected _ header line H); [| |exact P].
  - now rewrite <- append_assoc, Replace1_prefix.
  - now rewrite firstLine_terminated, D.
Qed.

(** Content that starts with its own header comes back as it is. *)
Lemma rewrite_own_header (line rest : string) :
  commentText commentStyle commentPrefix relPath = Some (line ++ nl) ->
  IndexByte line LF = None ->
  bufio.dropCR line = line ->
  (N.of_nat (length line) < bufio.MaxScanTokenSize)%N ->
  rewrite ((line ++ nl) ++ rest) relPath commentStyle commentPrefix
  = NewContent ((line ++ nl) ++ rest) true.
Proof.
  intros H I D L. rewrite append_assoc at 1.
  apply rewrite_header_line; try assumption.
  now apply commentText_detected.
Qed.

End Rewriter.

(** * The claims on the header rewriter *)

(** C3 (the code departs from it).  Rewriting is not idempotent on
    content whose header line ends in "\r\n" while later lines repeat it
    with a bare "\n": each pass leaves the first line alone and replaces
    the next repetition, so the second pass changes what the first
    produced. *)
Theorem rewrite_twice_differs :
  let content := "// File: a.go" ++ crlf ++ "package main" ++ nl
                 ++ "// File: a.go" ++ nl ++ "// File: a.go" ++ nl in
  let once := "// File: a.go" ++ crlf ++ "package main" ++ nl
              ++ "// File: b.go" ++ nl ++ "// File: a.go" ++ nl in
  let twice := "// File: a.go" ++ crlf ++ "package main" ++ nl
               ++ "// File: b.go" ++ nl ++ "// File: b.go" ++ nl in
  validPreferred cStyle = true
  /\ rewrite content "b.go" cStyle "File: " = NewContent once true
  /\ rewrite once "b.go" cStyle "File: " = NewContent twice true
  /\ twice <> once.
Proof. repeat split. discriminate. Qed.

(** Where the first pass leaves the header line at the start of the
    content, the second pass changes nothing. *)
Lemma rewrite_again_from_header
    (content relPath commentPrefix line once : string)
    (commentStyle : CommentStyle) (updated : bool) :
  commentText commentStyle commentPrefix relPath = Some (line ++ nl) ->
  IndexByte line LF = None ->
  bufio.dropCR line = line ->
  (N.of_nat (length line) < bufio.MaxScanTokenSize)%N ->
  rewrite content relPath commentStyle commentPrefix
  = NewContent once updated ->
  HasPrefix once (line ++ nl) = true ->
  rewrite once relPath commentStyle commentPrefix = NewContent once true.
Proof.
  intros H I D L _ P. apply HasPrefix_true in P as [rest ->].
  now apply rewrite_own_header.
Qed.




(** The branch of a header found, on the line the scanner yields.  When
    that line holds the line token and the prefix, or the block start
    and the prefix, the rewrite returns the content with exactly its
    first occurrence of the line followed by "\n" replaced by the header
    line, and reports a change in every case, also when the header is
    the line it replaces. *)
Theorem existing_header_replaced :
  (forall content relPath commentPrefix commentStyle line header,
      commentText commentStyle commentPrefix relPath = Some header ->
      bufio.firstLine content = Some line ->
      (Contains line (LineComment commentStyle) = true
       /\ Contains line commentPrefix = true)
      \/ (Contains line (BlockCommentStart commentStyle) = true
          /\ Contains line commentPrefix = true) ->
      exists newContent,
        rewrite content relPath commentStyle commentPrefix
        = NewContent newContent true
        /\ ReplacedFirst (line ++ nl) header content newContent)
  /\ rewrite ("// File: old/path.go" ++ nl ++ "package main" ++ nl)
       "new/path.go" cStyle "File: "
     = NewContent ("// File: new/path.go" ++ nl ++ "package main" ++ nl) true
  /\ rewrite ("// File: new/path.go" ++ nl ++ "package main" ++ nl)
       "new/path.go" cStyle "File: "
     = NewContent ("// File: new/path.go" ++ nl ++ "package main" ++ nl) true.
Proof.
  split; [|split; reflexivity].
  intros content relPath commentPrefix commentStyle line header H F P.
  apply hasPathComment_true in P.
  exists (Replace1 content (line ++ nl) header). split.
  - now apply rewrite_detected.
  - apply Replace1_ReplacedFirst.
Qed.

(** C5 (the code departs from it).  On content with "\r\n" line ends
    the first line, the bytes up to the first "\n", is a header and is
    followed by "\n"; replacing that first occurrence would give the new
    header line and the rest of the content.  The code looks for the
    line without its "\r", does not find it, and returns the content as
    it was, reported as changed. *)
Theorem crlf_header_not_replaced :
  let content := "// File: old/path.go" ++ crlf ++ "package main" ++ crlf in
  let header := "// File: new/path.go" ++ nl in
  let firstLine := "// File: old/path.go" ++ String CR "" in
  specFirstLine content = firstLine
  /\ hasPathComment firstLine cStyle "File: " = true
  /\ commentText cStyle "File: " "new/path.go" = Some header
  /\ Replace1 content (firstLine ++ nl) header
     = "// File: new/path.go" ++ nl ++ "package main" ++ crlf
  /\ rewrite content "new/path.go" cStyle "File: " = NewContent content true
  /\ content <> "// File: new/path.go" ++ nl ++ "package main" ++ crlf.
Proof. repeat split. discriminate. Qed.

(** C7 (the code departs from it).  A line other than the first is
    altered when the header line ends in "\r\n" and a later line repeats
    it with a bare "\n": the later line is replaced and the first one
    stays, so what followed the first line is not in the result. *)
Theorem rewrite_alters_later_line :
  let content := "// File: a.go" ++ crlf ++ "package main" ++ nl
                 ++ "// File: a.go" ++ nl ++ "func f() {}" ++ nl in
  let afterFirstLine := "package main" ++ nl
                        ++ "// File: a.go" ++ nl ++ "func f() {}" ++ nl in
  let newContent := "// File: a.go" ++ crlf ++ "package main" ++ nl
                    ++ "// File: b.go" ++ nl ++ "func f() {}" ++ nl in
  content = "// File: a.go" ++ crlf ++ afterFirstLine
  /\ rewrite content "b.go" cStyle "File: " = NewContent newContent true
  /\ Contains newContent afterFirstLine = false.
Proof. repeat split. Qed.





(** * Further facts *)

(** A first line that fills the scanner's buffer before its "\n" stops
    the scanner; [processFile] takes the file for an empty one, and the
    new content is the header line alone. *)
Lemma rewrite_long_first_line
    (relPath commentPrefix line rest header : string)
    (commentStyle : CommentStyle) :
  commentText commentStyle commentPrefix relPath = Some header ->
  IndexByte line LF = None ->
  (bufio.MaxScanTokenSize <= N.of_nat (length line))%N ->
  rewrite (line ++ nl ++ rest) relPath commentStyle commentPrefix
  = NewContent header true.
Proof.
  intros H I L. apply rewrite_no_line; [exact H|].
  now apply firstLine_too_long.
Qed.

(** Content without a header keeps all its lines behind the new one. *)
Lemma rewrite_plain_content :
  rewrite ("package main" ++ nl) "cmd/main.go" cStyle "File: "
  = NewContent ("// File: cmd/main.go" ++ nl ++ "package main" ++ nl) true
  /\ rewrite "" "a/b.go" cStyle "File: "
     = NewContent ("// File: a/b.go" ++ nl) true.
Proof. split; reflexivity. Qed.

(** The table of [TestGitIgnorePatternMatching]. *)
Lemma TestGitIgnorePatternMatching :
  map (fun '(path, pattern) => matchGitIgnorePattern path pattern)
    [ ("file.txt", "file.txt"); ("dir/file.txt", "file.txt");
      ("file.log", "*.log"); ("dir/file.log", "*.log");
      ("dir/subdir/file.log", "dir/*.log"); ("dir/file.log", "dir/*.log");
      ("build/output.txt", "build/"); ("build", "build/");
      ("docs/build/output.txt", "build/"); ("src/main.go", "*.js");
      ("node_modules/file.js", "node_modules/");
      ("dir/node_modules/file.js", "node_modules/");
      ("dist/bundle.js", "dist/"); ("src/dist/file.js", "/dist/");
      ("README.md", "*.md") ]
  = [ true; true; true; true; true; true; true; true; true; false;
      true; true; true; false; true ].
Proof. reflexivity. Qed.

(** * More on the pattern matcher *)

Section Segments.

Variable sep : ascii.

Lemma Split_no_sep (s : string) : Count s sep = 0 -> Split s sep = [s].
Proof.
  induction s as [|a s IH]; simpl; [reflexivity|].
  destruct (Ascii.eqb a sep); simpl; [discriminate|].
  intros H. now rewrite (IH H).
Qed.

Lemma Split_append_sep (a b : string) :
  Split (a ++ String sep b) sep = (Split a sep ++ Split b sep)%list.
Proof.
  induction a as [|x a IH]; simpl.
  - now rewrite Ascii.eqb_refl.
  - destruct (Ascii.eqb x sep); simpl; rewrite IH; [reflexivity|].
    pose proof (Split_length a sep) as L.
    destruct (Split a sep); [discriminate | reflexivity].
Qed.

(** The first piece ends at the first separator. *)
Lemma Split_head (s piece : string) (pieces : list string) :
  Split s sep = piece :: pieces ->
  Count piece sep = 0
  /\ ((pieces = [] /\ s = piece)
      \/ exists t, s = piece ++ String sep t /\ Split t sep = pieces).
Proof.
  revert piece pieces; induction s as [|a s IH]; intros piece pieces; simpl.
  - intros [= <- <-]. split; [reflexivity | now left].
  - destruct (Ascii.eqb_spec a sep) as [->|N].
    + intros [= <- <-]. split; [reflexivity|]. right. now exists s.
    + destruct (Split s sep) as [|q qs] eqn:E.
      * pose proof (Split_length s sep) as L. rewrite E in L. discriminate.
      * intros [= <- <-]. destruct (IH q qs eq_refl) as [C H].
        split.
        -- simpl. destruct (Ascii.eqb_spec a sep); [contradiction | exact C].
        -- destruct H as [[-> ->]|(t & -> & T)]; [now left|].
           right. now exists t.
Qed.

(** The pieces of a path are its stretches between separators. *)
Lemma Split_In (s seg : string) :
  In seg (Split s sep) <->
  Count seg sep = 0
  /\ (s = seg
      \/ (exists t, s = seg ++ String sep t)
      \/ (exists h, s = h ++ String sep seg)
      \/ (exists h t, s = h ++ String sep (seg ++ String sep t))).
Proof.
  split.
  - remember (length s) as n eqn:Ln. revert s Ln seg.
    induction n as [n IH] using lt_wf_ind. intros s Ln seg I.
    destruct (Split s sep) as [|piece pieces] eqn:E; [destruct I|].
    destruct (Split_head s piece pieces E) as [C H].
    destruct I as [<-|I].
    + split; [exact C|].
      destruct H as [[_ ->]|(t & -> & _)]; [now left|].
      right; left. now exists t.
    + destruct H as [[-> _]|(t & -> & T)]; [destruct I|].
      rewrite <- T in I.
      assert (Lt : length t < n).
      { subst n. rewrite length_append. simpl. lia. }
      destruct (IH (length t) Lt t eq_refl seg I) as [Cs F].
      split; [exact Cs|]. right; right.
      destruct F as [->|[[u ->]|[[h ->]|(h & u & ->)]]].
      * left. now exists piece.
      * right. now exists piece, u.
      * left. exists (piece ++ String sep h). now rewrite append_assoc.
      * right. exists (piece ++ String sep h), u. now rewrite append_assoc.
  - intros [C F].
    destruct F as [->|[[t ->]|[[h ->]|(h & t & ->)]]].
    + rewrite Split_no_sep by exact C. now left.
    + rewrite Split_append_sep, Split_no_sep by exact C. now left.
    + rewrite Split_append_sep, (Split_no_sep seg) by exact C.
      apply in_or_app. right. now left.
    + rewrite !Split_append_sep, (Split_no_sep seg) by exact C.
      apply in_or_app. right. now left.
Qed.

End Segments.

(** Appends nested to the right, with the literals pushed inside. *)
Ltac reassociate :=
  repeat (progress (rewrite ?append_assoc; simpl append)).

Section MoreRules.

Lemma Count_zero_Contains (s : string) (c : ascii) :
  Count s c = 0 -> Contains s (String c "") = false.
Proof.
  intros Z. destruct (Contains s (String c "")) eqn:E; [|reflexivity].
  apply Contains_true in E as (a & b & E).
  pose proof (Count_occurrence _ _ _ _ c E) as L. simpl in L.
  rewrite Ascii.eqb_refl in L. lia.
Qed.

Lemma Count_zero_HasPrefix (s : string) (c : ascii) :
  Count s c = 0 -> HasPrefix s (String c "") = false.
Proof.
  intros Z. destruct (HasPrefix s (String c "")) eqn:E; [|reflexivity].
  apply HasPrefix_true in E as [r ->]. simpl in Z.
  rewrite Ascii.eqb_refl in Z. discriminate.
Qed.

Lemma Count_zero_HasSuffix (s : string) (c : ascii) :
  Count s c = 0 -> HasSuffix s (String c "") = false.
Proof.
  intros Z. destruct (HasSuffix s (String c "")) eqn:E; [|reflexivity].
  apply HasSuffix_true in E as [r ->]. rewrite Count_append in Z. simpl in Z.
  rewrite Ascii.eqb_refl in Z. lia.
Qed.

Lemma directoryRule_true (path dirName : string) :
  directoryRule path dirName = true <->
  path = dirName
  \/ (exists t, path = dirName ++ String "/" t)
  \/ (exists h, path = h ++ String "/" dirName)
  \/ (exists h t, path = h ++ String "/" (dirName ++ String "/" t)).
Proof.
  unfold directoryRule.
  rewrite !orb_true_iff, String.eqb_eq, HasPrefix_true, HasSuffix_true,
    Contains_true.
  split.
  - intros [[[H|[t H]]|[h H]]|(h & t & H)].
    + now left.
    + right; left. exists t. now rewrite H, append_assoc.
    + right; right; left. now exists h.
    + right; right; right. exists h, t. rewrite H. simpl.
      now rewrite append_assoc.
  - intros [H|[[t H]|[[h H]|(h & t & H)]]].
    + now left; left; left.
    + left; left; right. exists t. now rewrite H, append_assoc.
    + left; right. now exists h.
    + right. exists h, t. rewrite H. simpl. now rewrite append_assoc.
Qed.

Lemma directory_pattern_rule (path name : string) :
  name <> "" ->
  HasPrefix name "/" = false ->
  matchGitIgnorePattern path (name ++ "/") = directoryRule path name.
Proof.
  intros NE R.
  assert (R' : HasPrefix (name ++ "/") "/" = false).
  { destruct name as [|c name]; [contradiction|].
    destruct (HasPrefix (String c name ++ "/") "/") eqn:E; [|reflexivity].
    apply HasPrefix_true in E as [r E]. simpl in E. injection E as -> _.
    discriminate. }
  rewrite (matchGitIgnorePattern_directory _ _ R' (HasSuffix_append name "/")).
  f_equal. rewrite length_append. simpl.
  replace (length name + 1 - 1) with (length name) by lia.
  apply take_append.
Qed.

Lemma existsb_eqb_In (l : list string) (x : string) :
  existsb (fun y => y =? x) l = true <-> In x l.
Proof.
  rewrite existsb_exists. split.
  - intros (y & I & E). apply String.eqb_eq in E. now subst.
  - intros I. exists x. split; [exact I | apply String.eqb_refl].
Qed.

End MoreRules.

(** X1.  For a name without "/" or "*" that does not start with "!",
    the plain pattern and the directory pattern, the name followed by
    "/", match the same paths: the matcher does not tell a file from a
    directory. *)
Theorem plain_name_matches_as_directory (path name : string) :
  name <> "" ->
  Count name "/" = 0 ->
  Count name "*" = 0 ->
  HasPrefix name "!" = false ->
  matchGitIgnorePattern path name = matchGitIgnorePattern path (name ++ "/").
Proof.
  intros NE S A N.
  rewrite directory_pattern_rule
    by (try assumption; now apply Count_zero_HasPrefix).
  unfold matchGitIgnorePattern.
  rewrite (Count_zero_HasPrefix _ _ S), (Count_zero_HasSuffix _ _ S), N.
  rewrite (Count_zero_Contains _ _ A). unfold matchExact.
  rewrite (Count_zero_Contains _ _ S).
  apply eq_true_iff_eq.
  rewrite existsb_eqb_In, (Split_In "/"), directoryRule_true.
  split; [now intros [_ H] | intros H; now split].
Qed.

Lemma plain_name_matches_as_directory_witness :
  matchGitIgnorePattern "src/vendor/lib.go" "vendor"
  = matchGitIgnorePattern "src/vendor/lib.go" "vendor/".
Proof.
  apply (plain_name_matches_as_directory "src/vendor/lib.go" "vendor");
    [discriminate | reflexivity | reflexivity | reflexivity].
Defined.

(** X2.  A rooted pattern "/name", the name without a slash, matches
    the paths whose first segment is the name, and no others. *)
Theorem rooted_name_matches_first_segment (path name : string) :
  Count name "/" = 0 ->
  matchGitIgnorePattern path (String "/" name)
  = (hd "" (Split path "/") =? name).
Proof.
  intros S. rewrite matchGitIgnorePattern_rooted. apply eq_true_iff_eq.
  rewrite rootedRule_true, String.eqb_eq. split.
  - intros [->|[tail ->]].
    + now rewrite Split_no_sep.
    + simpl append. now rewrite Split_append_sep, Split_no_sep.
  - destruct (Split path "/") as [|piece pieces] eqn:E.
    + pose proof (Split_length path "/") as L. rewrite E in L. discriminate.
    + simpl. intros ->.
      destruct (Split_head "/" path name pieces E) as [_ [[_ ->]|(t & -> & _)]];
        [now left | right; now exists t].
Qed.

Lemma rooted_name_matches_first_segment_witness :
  matchGitIgnorePattern "docs/build/index.html" "/build" = false
  /\ matchGitIgnorePattern "build/index.html" "/build" = true.
Proof.
  split.
  - now rewrite (rooted_name_matches_first_segment
                   "docs/build/index.html" "build" eq_refl).
  - now rewrite (rooted_name_matches_first_segment
                   "build/index.html" "build" eq_refl).
Defined.

(** X3.  A pattern that is not a one-asterisk wildcard and matches a
    path matches every path below it as well. *)
Theorem match_extends_below (path child pattern : string) :
  Count pattern "*" <> 1 ->
  matchGitIgnorePattern path pattern = true ->
  matchGitIgnorePattern (path ++ "/" ++ child) pattern = true.
Proof.
  intros W M.
  assert (Rooted : forall rest,
             rootedRule path rest = true ->
             rootedRule (path ++ "/" ++ child) rest = true).
  { intros rest H. apply rootedRule_true. right.
    apply rootedRule_true in H as [->|[tail ->]].
    - now exists child.
    - exists (tail ++ "/" ++ child). now rewrite !append_assoc. }
  unfold matchGitIgnorePattern in *.
  destruct (HasPrefix pattern "/"); [now apply Rooted|].
  destruct (HasSuffix pattern "/") eqn:D.
  - set (dirName := take (length pattern - 1) pattern) in *.
    rewrite <- (HasSuffix_slash pattern D) in M |- *. fold dirName in M |- *.
    change (directoryRule path dirName = true) in M.
    change (directoryRule (path ++ "/" ++ child) dirName = true).
    apply directoryRule_true. apply directoryRule_true in M.
    destruct M as [->|[[t ->]|[[h ->]|(h & t & ->)]]].
    + right; left. now exists child.
    + right; left. exists (t ++ "/" ++ child). now reassociate.
    + right; right; right. exists h, child. now reassociate.
    + right; right; right. exists h, (t ++ "/" ++ child).
      now reassociate.
  - destruct (HasPrefix pattern "!"); [discriminate|].
    rewrite matchWildcard_None in M |- * by exact W.
    assert (X : matchExact path pattern = true)
      by now destruct (Contains pattern "*").
    assert (Y : matchExact (path ++ "/" ++ child) pattern = true).
    { unfold matchExact in *. destruct (Contains pattern "/").
      - now apply Rooted.
      - simpl append. rewrite Split_append_sep, existsb_app, X.
        reflexivity. }
    now destruct (Contains pattern "*").
Qed.

Lemma match_extends_below_witness :
  matchGitIgnorePattern ("a/vendor" ++ "/" ++ "x/y.go") "vendor" = true.
Proof.
  apply (match_extends_below "a/vendor" "x/y.go" "vendor");
    [discriminate | reflexivity].
Defined.

(** X4.  A pattern with exactly one "*", no leading "/" or "!" and no
    trailing "/", is matched as a wildcard: "*suffix" against the end
    of the path, "prefix*" against its start, "prefix*suffix" against
    both when the prefix has a slash and against the last element of
    the path when it has none; "*" alone is compared as a plain name. *)
Theorem one_asterisk_wildcard (path prefix suffix : string) :
  Count prefix "*" = 0 ->
  Count suffix "*" = 0 ->
  HasPrefix (prefix ++ "*" ++ suffix) "/" = false ->
  HasPrefix (prefix ++ "*" ++ suffix) "!" = false ->
  HasSuffix (prefix ++ "*" ++ suffix) "/" = false ->
  matchGitIgnorePattern path (prefix ++ "*" ++ suffix)
  = wildcardRule path prefix suffix.
Proof.
  intros P S R N D. unfold matchGitIgnorePattern. rewrite R, N, D.
  assert (C : Contains (prefix ++ "*" ++ suffix) "*" = true)
    by (apply Contains_true; now exists prefix, suffix).
  rewrite C. unfold matchWildcard. simpl append.
  rewrite Split_append_sep, !Split_no_sep by assumption. simpl app.
  unfold wildcardRule.
  destruct (prefix =? "") eqn:Ep, (suffix =? "") eqn:Es; simpl;
    try reflexivity.
  - apply String.eqb_eq in Ep, Es. now subst.
  - now destruct (Contains prefix "/").
Qed.

Lemma one_asterisk_wildcard_witness :
  matchGitIgnorePattern "logs/2024/app.log" ("" ++ "*" ++ ".log") = true
  /\ matchGitIgnorePattern "src/temp1" ("temp" ++ "*" ++ "") = false
  /\ matchGitIgnorePattern "a/b/test_io.go" ("test_" ++ "*" ++ ".go") = true.
Proof.
  split; [|split].
  - now rewrite (one_asterisk_wildcard "logs/2024/app.log" "" ".log"
                   eq_refl eq_refl eq_refl eq_refl eq_refl).
  - now rewrite (one_asterisk_wildcard "src/temp1" "temp" ""
                   eq_refl eq_refl eq_refl eq_refl eq_refl).
  - now rewrite (one_asterisk_wildcard "a/b/test_io.go" "test_" ".go"
                   eq_refl eq_refl eq_refl eq_refl eq_refl).
Defined.

(** * Reading the .gitignore file *)

Section ReadingPatterns.

Variables trimFuncIsSpace trimRightFuncIsSpace : string -> string.

Let trim := TrimSpace trimFuncIsSpace trimRightFuncIsSpace.
Let scan := scanPatterns trimFuncIsSpace trimRightFuncIsSpace.

Lemma IndexByte_None_Count (s : string) (c : ascii) :
  IndexByte s c = None <-> Count s c = 0.
Proof.
  induction s as [|a s IH]; simpl; [tauto|].
  destruct (Ascii.eqb a c); simpl.
  - split; discriminate.
  - rewrite <- IH. destruct (IndexByte s c); simpl; split; congruence.
Qed.

Lemma tooLong_ltb (line : string) :
  (N.of_nat (length line) <? bufio.MaxScanTokenSize)%N = negb (tooLong line).
Proof. unfold tooLong. now rewrite N.leb_antisym, negb_involutive. Qed.

(** A [Scan] at a line that "\n" closes, and at the last line. *)
Lemma Scan_line (line rest : string) :
  IndexByte line LF = None ->
  Scan (line ++ String LF rest)
  = if tooLong line then None else Some (bufio.dropCR line, rest).
Proof.
  intros I. unfold Scan. destruct (tooLong line) eqn:T.
  - change (line ++ String LF rest) with (line ++ nl ++ rest).
    rewrite firstLine_too_long; [reflexivity | exact I |].
    now apply N.leb_le.
  - change (line ++ String LF rest) with (line ++ nl ++ rest).
    rewrite firstLine_terminated; [| exact I |].
    + unfold nl. simpl append. rewrite (IndexByte_append line rest LF I).
      replace (S (length line)) with (length (line ++ String LF ""))
        by (rewrite length_append; simpl; lia).
      replace (line ++ String LF rest) with ((line ++ String LF "") ++ rest)
        by now rewrite append_assoc.
      now rewrite drop_append.
    + apply N.ltb_lt. now rewrite tooLong_ltb, T.
Qed.

Lemma Scan_last (input : string) :
  IndexByte input LF = None ->
  Scan input
  = if (input =? "") || tooLong input then None
    else Some (bufio.dropCR input, "").
Proof.
  intros I. unfold Scan, bufio.firstLine. rewrite I, tooLong_ltb.
  destruct input as [|c input]; [reflexivity|].
  destruct (tooLong (String c input)); [reflexivity|].
  unfold bufio.ScanLines. rewrite I. reflexivity.
Qed.

Lemma Split_at_IndexByte (s : string) (c : ascii) (i : nat) :
  IndexByte s c = Some i ->
  Split s c = take i s :: Split (drop (S i) s) c.
Proof.
  intros I. apply IndexByte_Some in I as (E & F & _).
  rewrite E at 1. rewrite Split_append_sep, Split_no_sep; [reflexivity|].
  now apply IndexByte_None_Count.
Qed.

(** The loop gathers the lines between the "\n" bytes of the input,
    each less a "\r" at its end and trimmed, that are not empty and do
    not start with "#"; it fails on a line that does not fit the
    buffer. *)
Lemma scanPatterns_lines (fuel : nat) (input : string) (acc : list string) :
  length input < fuel ->
  scan fuel input acc
  = if existsb tooLong (Split input LF) then None
    else Some (acc ++ filter keptLine
                        (map (fun line => trim (bufio.dropCR line))
                           (Split input LF)))%list.
Proof.
  revert input acc; induction fuel as [|fuel IH]; intros input acc L; [lia|].
  unfold scan. simpl. fold scan.
  destruct (IndexByte input LF) as [i|] eqn:I.
  - rewrite (Split_at_IndexByte _ _ _ I).
    apply IndexByte_Some in I as (E & F & Li).
    set (line := take i input) in *. set (rest := drop (S i) input) in *.
    clearbody line rest. subst input.
    rewrite (Scan_line line rest F). simpl existsb.
    destruct (tooLong line); [now destruct line|]. simpl orb. simpl map.
    assert (Lr : length rest < fuel).
    { rewrite length_append in L. simpl in L. lia. }
    simpl filter. unfold keptLine at 1. fold trim.
    destruct ((trim (bufio.dropCR line) =? "")
              || HasPrefix (trim (bufio.dropCR line)) "#"); simpl negb;
      rewrite (IH rest _ Lr); [reflexivity|].
    destruct (existsb tooLong (Split rest LF)); [reflexivity|].
    now rewrite <- app_assoc.
  - rewrite (Scan_last input I).
    rewrite (Split_no_sep LF input) by now apply IndexByte_None_Count.
    simpl existsb. rewrite orb_false_r.
    destruct (String.eqb_spec input "") as [->|NE].
    + simpl. now rewrite app_nil_r.
    + simpl orb. destruct (tooLong input); [reflexivity|].
      destruct fuel as [|fuel]; [destruct input; [contradiction|simpl in L; lia]|].
      cbn [map filter]. unfold keptLine. fold trim.
      remember (trim (bufio.dropCR input)) as line.
      destruct ((line =? "") || HasPrefix line "#"); simpl negb;
        unfold scan; simpl; [now rewrite app_nil_r | reflexivity].
Qed.

End ReadingPatterns.

Section TrimFacts.

Variables trimFuncIsSpace trimRightFuncIsSpace : string -> string.

Lemma dropSpaceRight_fixed (s : string) (c : ascii) :
  lastByte s = Some c -> asciiSpace c = false -> dropSpaceRight s = s.
Proof.
  intros L A. induction s as [|a s IH]; [discriminate|].
  destruct s as [|b s].
  - simpl in *. injection L as ->. now rewrite A.
  - change (lastByte (String b s) = Some c) in L.
    change (dropSpaceRight (String a (String b s)))
      with (match dropSpaceRight (String b s) with
            | "" => if asciiSpace a then "" else String a ""
            | kept => String a kept
            end).
    now rewrite (IH L).
Qed.

Lemma lastByte_isASCII (s : string) (c : ascii) :
  isASCII s = true -> lastByte s = Some c -> nonASCII c = false.
Proof.
  induction s as [|a s IH]; [discriminate|].
  intros H L. simpl in H. apply andb_true_iff in H as [Ha Hs].
  destruct s as [|b s].
  - simpl in L. injection L as <-. unfold nonASCII.
    apply Nat.ltb_lt in Ha. apply Nat.leb_gt. exact Ha.
  - apply IH; assumption.
Qed.

(** A string of ASCII bytes without a space at either end is what
    [TrimSpace] returns for it. *)
Lemma TrimSpace_fixed (s : string) (first last : ascii) (rest : string) :
  isASCII s = true ->
  s = String first rest -> asciiSpace first = false ->
  lastByte s = Some last -> asciiSpace last = false ->
  TrimSpace trimFuncIsSpace trimRightFuncIsSpace s = s.
Proof.
  intros A E F L G. unfold TrimSpace.
  assert (K : skipSpace s = AtStart s).
  { subst s. simpl in A |- *. apply andb_true_iff in A as [A _].
    unfold nonASCII. apply Nat.ltb_lt in A.
    replace (128 <=? nat_of_ascii first)%nat with false
      by (symmetry; apply Nat.leb_gt; exact A).
    now rewrite F. }
  rewrite K, (dropSpaceRight_fixed s last L G), L.
  now rewrite (lastByte_isASCII s last A L).
Qed.

Lemma dropCR_fixed (s : string) (c : ascii) :
  lastByte s = Some c -> c <> CR -> bufio.dropCR s = s.
Proof.
  intros L N. destruct (dropCR_cases s) as [D|D]; [exact D|].
  exfalso. rewrite D in L. clear D.
  induction (bufio.dropCR s) as [|a t IH]; simpl in L.
  - now injection L as <-.
  - destruct t; simpl in *; [now injection L as <-|]. now apply IH.
Qed.

End TrimFacts.

Section NewGitIgnoreFacts.

Variables trimFuncIsSpace trimRightFuncIsSpace : string -> string.
Variable Join : string -> string -> string.
Variable FS : Type.
Variable Open : FS -> string -> opened.

Let trim := TrimSpace trimFuncIsSpace trimRightFuncIsSpace.
Let load := NewGitIgnore trimFuncIsSpace trimRightFuncIsSpace Join FS Open.

Lemma NewGitIgnore_Opened (fs : FS) (root data : string) :
  Open fs (Join root ".gitignore") = Opened data false ->
  load fs root
  = if existsb tooLong (Split data LF) then None
    else Some {| patterns :=
                   filter keptLine
                     (map (fun line => trim (bufio.dropCR line))
                        (Split data LF));
                 rootDir := root |}.
Proof.
  intros O. unfold load, NewGitIgnore. rewrite O.
  rewrite scanPatterns_lines by lia.
  now destruct (existsb tooLong (Split data LF)).
Qed.

Lemma NewGitIgnore_patterns (fs : FS) (root : string) (gi : GitIgnore) :
  load fs root = Some gi ->
  rootDir gi = root
  /\ forall pattern, In pattern (patterns gi) ->
       pattern <> "" /\ HasPrefix pattern "#" = false.
Proof.
  unfold load, NewGitIgnore.
  destruct (Open fs (Join root ".gitignore")) as [| |data readFails].
  - intros [= <-]. split; [reflexivity | intros p []].
  - discriminate.
  - rewrite scanPatterns_lines by lia.
    destruct (existsb tooLong (Split data LF)); [discriminate|].
    destruct readFails; [discriminate|]. intros [= <-].
    split; [reflexivity|]. simpl. intros p I.
    apply filter_In in I as [_ K]. unfold keptLine in K.
    apply negb_true_iff, orb_false_iff in K as [K1 K2].
    split; [now apply String.eqb_neq | exact K2].
Qed.

Lemma Split_joinLines (dos : bool) (lines : list string) :
  Forall (fun p => Count p LF = 0) lines ->
  Split (joinLines dos lines) LF
  = List.app (map (fun p => if dos then p ++ String CR "" else p) lines) [""].
Proof.
  induction 1 as [|p lines C _ IH]; [reflexivity|].
  simpl joinLines. destruct dos.
  - unfold crlf. simpl map.
    replace (p ++ String CR (String LF "") ++ joinLines true lines)
      with ((p ++ String CR "") ++ String LF (joinLines true lines))
      by now rewrite append_assoc.
    rewrite Split_append_sep, Split_no_sep, IH; [reflexivity|].
    rewrite Count_append, C. reflexivity.
  - unfold nl. simpl append. simpl map.
    now rewrite Split_append_sep, Split_no_sep, IH.
Qed.

Lemma writablePattern_kept (dos : bool) (p : string) :
  writablePattern p = true ->
  Count p LF = 0
  /\ tooLong (if dos then p ++ String CR "" else p) = false
  /\ trim (bufio.dropCR (if dos then p ++ String CR "" else p)) = p
  /\ keptLine p = true.
Proof.
  unfold writablePattern. rewrite !andb_true_iff.
  intros [[[[[A K] C] F] L] B].
  apply Nat.eqb_eq in C. apply N.ltb_lt in B.
  destruct p as [|first rest]; [discriminate|].
  destruct (lastByte (String first rest)) as [last|] eqn:E; [|discriminate].
  apply negb_true_iff in F, L.
  assert (T : trim (String first rest) = String first rest)
    by (eapply TrimSpace_fixed; eauto).
  repeat split; try assumption.
  - unfold tooLong. apply N.leb_gt. unfold bufio.MaxScanTokenSize in *.
    destruct dos; [rewrite length_append; simpl length in *|]; lia.
  - destruct dos.
    + now rewrite dropCR_append_CR.
    + rewrite (dropCR_fixed _ last E); [exact T|].
      intros ->. discriminate.
Qed.

Lemma NewGitIgnore_joinLines (fs : FS) (root : string) (dos : bool)
    (lines : list string) :
  Forall (fun p => writablePattern p = true) lines ->
  Open fs (Join root ".gitignore") = Opened (joinLines dos lines) false ->
  load fs root = Some {| patterns := lines; rootDir := root |}.
Proof.
  intros W O. rewrite (NewGitIgnore_Opened fs root _ O).
  rewrite (Split_joinLines dos lines).
  2:{ eapply Forall_impl; [|exact W]. intros p H.
      now destruct (writablePattern_kept dos p H). }
  rewrite existsb_app, map_app, filter_app. simpl.
  replace (trim "") with "" by reflexivity. simpl.
  rewrite orb_false_r, app_nil_r.
  assert (X : existsb tooLong
                (map (fun p => if dos then p ++ String CR "" else p) lines)
              = false
              /\ filter keptLine
                   (map (fun line => trim (bufio.dropCR line))
                      (map (fun p => if dos then p ++ String CR "" else p)
                         lines))
                 = lines).
  { clear O. induction W as [|p lines H _ [IH1 IH2]]; [now split|].
    destruct (writablePattern_kept dos p H) as (_ & T & D & K).
    simpl. rewrite T, D, K, IH1, IH2. now split. }
  destruct X as [-> ->]. reflexivity.
Qed.

End NewGitIgnoreFacts.

(** X5.  From a .gitignore file that opens and reads without error,
    [NewGitIgnore] takes the lines between the "\n" bytes, in order,
    each less one "\r" at its end and trimmed of white space, leaving
    out the empty ones and those that start with "#"; it fails when a
    line has [MaxScanTokenSize] bytes or more. *)
Theorem gitignore_file_lines
    (trimFuncIsSpace trimRightFuncIsSpace : string -> string)
    (Join : string -> string -> string) (FS : Type)
    (Open : FS -> string -> opened) (fs : FS) (root data : string) :
  Open fs (Join root ".gitignore") = Opened data false ->
  NewGitIgnore trimFuncIsSpace trimRightFuncIsSpace Join FS Open fs root
  = if existsb tooLong (Split data LF) then None
    else Some {| patterns :=
                   filter keptLine
                     (map (fun line =>
                             TrimSpace trimFuncIsSpace trimRightFuncIsSpace
                               (bufio.dropCR line))
                        (Split data LF));
                 rootDir := root |}.
Proof. apply NewGitIgnore_Opened. Qed.

Lemma gitignore_file_lines_witness :
  let data := "# build output" ++ nl ++ "*.log" ++ nl ++ nl
              ++ "  dist/  " ++ crlf ++ "!keep.log" in
  NewGitIgnore (fun s => s) (fun s => s) joinClean memFS memOpen
    [("/repo/.gitignore", data)] "/repo"
  = Some {| patterns := ["*.log"; "dist/"; "!keep.log"];
            rootDir := "/repo" |}.
Proof.
  intros data.
  exact (gitignore_file_lines (fun s => s) (fun s => s) joinClean memFS
           memOpen [("/repo/.gitignore", data)] "/repo" data eq_refl).
Defined.

(** X6.  Whatever the file holds, no pattern that [NewGitIgnore]
    returns is empty or starts with "#", and the root directory is the
    one it was given. *)
Theorem gitignore_patterns_kept
    (trimFuncIsSpace trimRightFuncIsSpace : string -> string)
    (Join : string -> string -> string) (FS : Type)
    (Open : FS -> string -> opened) (fs : FS) (root : string)
    (gi : GitIgnore) :
  NewGitIgnore trimFuncIsSpace trimRightFuncIsSpace Join FS Open fs root
  = Some gi ->
  rootDir gi = root
  /\ forall pattern, In pattern (patterns gi) ->
       pattern <> "" /\ HasPrefix pattern "#" = false.
Proof. apply NewGitIgnore_patterns. Qed.

Lemma gitignore_patterns_kept_witness :
  let gi := {| patterns := ["*.log"; "dist/"]; rootDir := "/repo" |} in
  rootDir gi = "/repo"
  /\ forall pattern, In pattern (patterns gi) ->
       pattern <> "" /\ HasPrefix pattern "#" = false.
Proof.
  exact (gitignore_patterns_kept (fun s => s) (fun s => s) joinClean
           memFS memOpen
           [("/repo/.gitignore",
             " #notes" ++ nl ++ "*.log" ++ nl ++ "dist/" ++ nl)]
           "/repo"
           {| patterns := ["*.log"; "dist/"]; rootDir := "/repo" |}
           eq_refl).
Defined.

(** X7.  Patterns written one to a line, with "\n" or with "\r\n" at the
    end of each line, are read back as they were: the same patterns in
    the same order. *)
Theorem gitignore_round_trip
    (trimFuncIsSpace trimRightFuncIsSpace : string -> string)
    (Join : string -> string -> string) (FS : Type)
    (Open : FS -> string -> opened) (fs : FS) (root : string)
    (dos : bool) (lines : list string) :
  Forall (fun p => writablePattern p = true) lines ->
  Open fs (Join root ".gitignore") = Opened (joinLines dos lines) false ->
  NewGitIgnore trimFuncIsSpace trimRightFuncIsSpace Join FS Open fs root
  = Some {| patterns := lines; rootDir := root |}.
Proof. apply NewGitIgnore_joinLines. Qed.

Lemma gitignore_round_trip_witness :
  NewGitIgnore (fun s => s) (fun s => s) joinClean memFS memOpen
    [("/repo/.gitignore",
      joinLines true ["node_modules/"; "*.log"; "!keep me.log"])] "/repo"
  = Some {| patterns := ["node_modules/"; "*.log"; "!keep me.log"];
            rootDir := "/repo" |}.
Proof.
  apply (gitignore_round_trip (fun s => s) (fun s => s) joinClean memFS
           memOpen _ "/repo" true).
  - repeat constructor.
  - reflexivity.
Defined.



Lemma existsb_Permutation (A : Type) (f : A -> bool) (l l' : list A) :
  Permutation l l' -> existsb f l = existsb f l'.
Proof.
  induction 1 as [|x l l' _ IH|x y l|l l' l'' _ IH1 _ IH2]; simpl.
  - reflexivity.
  - now rewrite IH.
  - now destruct (f x), (f y).
  - now rewrite IH1.
Qed.

(** X9.  The order of the patterns does not change what [ShouldIgnore]
    answers: a pattern with "!" includes a path again whether it stands
    before or after the pattern that excludes it. *)
Theorem ShouldIgnore_order_irrelevant
    (Rel : string -> string -> option string) (root path : string)
    (patterns1 patterns2 : list string) :
  Permutation patterns1 patterns2 ->
  ShouldIgnore Rel {| patterns := patterns1; rootDir := root |} path
  = ShouldIgnore Rel {| patterns := patterns2; rootDir := root |} path.
Proof.
  intros P. unfold ShouldIgnore. simpl.
  destruct (Rel root path) as [relPath|]; [|reflexivity].
  rewrite !firstPass_excluded, !secondPass_reincluded.
  unfold excluded, reincluded.
  now rewrite (existsb_Permutation _ _ _ _ P),
    (existsb_Permutation _ (fun pattern => HasPrefix pattern "!" && _) _ _ P).
Qed.

Lemma ShouldIgnore_order_irrelevant_witness :
  ShouldIgnore (fun _ p => Some p)
    {| patterns := ["!build/keep.txt"; "build/"]; rootDir := "" |}
    "build/keep.txt"
  = ShouldIgnore (fun _ p => Some p)
      {| patterns := ["build/"; "!build/keep.txt"]; rootDir := "" |}
      "build/keep.txt".
Proof.
  apply (ShouldIgnore_order_irrelevant (fun _ p => Some p) "" "build/keep.txt").
  apply perm_swap.
Defined.

(** * More on [processFile] *)

Lemma IndexByte_take (n : nat) (s : string) (c : ascii) :
  (exists j, IndexByte (take n s) c = Some j)
  <-> exists i, i < n /\ get i s = Some c.
Proof.
  revert s; induction n as [|n IH]; intros s.
  - rewrite take_0. simpl. split; [intros [j H]; discriminate|].
    intros (i & H & _). lia.
  - destruct s as [|a s]; simpl.
    + split; [intros [j H]; discriminate|].
      intros (i & _ & H). now destruct i.
    + destruct (Ascii.eqb_spec a c) as [->|N].
      * split; [|now exists 0]. intros _. exists 0. split; [lia | reflexivity].
      * split.
        -- intros [j H]. destruct (IndexByte (take n s) c) as [k|] eqn:E;
             [|discriminate].
           destruct (proj1 (IH s) (ex_intro _ k E)) as (i & Hi & G).
           exists (S i). split; [lia | exact G].
        -- intros (i & Hi & G). destruct i as [|i].
           ++ simpl in G. congruence.
           ++ simpl in G.
              destruct (proj2 (IH s)) as [k ->]; [exists i; split; [lia|exact G]|].
              now exists (S k).
Qed.

Lemma rewrite_updated (content relPath commentPrefix newContent : string)
    (commentStyle : CommentStyle) (updated : bool) :
  rewrite content relPath commentStyle commentPrefix
  = NewContent newContent updated ->
  updated = true.
Proof.
  unfold rewrite.
  destruct (commentText commentStyle commentPrefix relPath); [|discriminate].
  destruct (bufio.firstLine content) as [line|].
  - destruct (hasPathComment line commentStyle commentPrefix);
      now intros [= _ <-].
  - now intros [= _ <-].
Qed.

(** X10.  [isBinaryFile] is true exactly for a file that can be read
    and has a null byte among its first 512 bytes; a null byte further
    on goes unseen. *)
Theorem isBinaryFile_first_512
    (FS : Type) (ReadFile : FS -> string -> option string)
    (fs : FS) (path : string) :
  isBinaryFile FS ReadFile fs path = true
  <-> exists data i,
      ReadFile fs path = Some data /\ i < 512 /\ get i data = Some NUL.
Proof.
  unfold isBinaryFile. destruct (ReadFile fs path) as [data|].
  - split.
    + destruct (IndexByte (take 512 data) NUL) as [j|] eqn:E; [|discriminate].
      intros _. destruct (proj1 (IndexByte_take 512 data NUL)
                            (ex_intro _ j E)) as (i & Hi & G).
      now exists data, i.
    + intros (d & i & [= <-] & Hi & G).
      destruct (proj2 (IndexByte_take 512 data NUL)) as [j ->];
        [now exists i | reflexivity].
  - split; [discriminate|]. now intros (d & i & H & _).
Qed.

Section ProcessFileFacts.

Variable unicodeToLower : string -> string.
Variable FS : Type.
Variable ReadFile : FS -> string -> option string.
Variable WriteFile : FS -> string -> string -> FS * bool.

Let run := processFile unicodeToLower FS ReadFile WriteFile.

Lemma processFile_dry_run (p : Processor) (fs : FS)
    (filePath relPath : string) :
  DryRun (options p) = true ->
  snd (run p fs filePath relPath) = fs.
Proof.
  intros D. unfold run, processFile.
  destruct (isBinaryFile FS ReadFile fs filePath); [reflexivity|].
  destruct (lookup _ (fileTypes p)); [|reflexivity].
  destruct (ReadFile fs filePath); [|reflexivity].
  destruct (rewrite _ _ _ _) as [|newContent updated]; [reflexivity|].
  rewrite D. now rewrite andb_false_r.
Qed.

Lemma processFile_outcome (p : Processor) (fs : FS)
    (filePath relPath : string) :
  (fst (run p fs filePath relPath) = (false, None)
   <-> isBinaryFile FS ReadFile fs filePath = true)
  /\ (isBinaryFile FS ReadFile fs filePath = true ->
      snd (run p fs filePath relPath) = fs).
Proof.
  unfold run, processFile.
  destruct (isBinaryFile FS ReadFile fs filePath).
  - split; [split; reflexivity | reflexivity].
  - split; [|discriminate]. split; [|discriminate].
    destruct (lookup _ (fileTypes p)); [|discriminate].
    destruct (ReadFile fs filePath); [|discriminate].
    destruct (rewrite _ _ _ _) as [|newContent updated] eqn:R; [discriminate|].
    rewrite (rewrite_updated _ _ _ _ _ _ R). simpl.
    destruct (DryRun (options p)); simpl; [discriminate|].
    destruct (WriteFile fs filePath newContent) as [fs' []]; discriminate.
Qed.

Lemma processFile_writes_own_file (p : Processor) (fs : FS)
    (filePath relPath : string) :
  snd (run p fs filePath relPath) = fs
  \/ exists content commentStyle newContent,
       ReadFile fs filePath = Some content
       /\ lookup (ToLower unicodeToLower (filepath.Ext filePath))
            (fileTypes p) = Some commentStyle
       /\ rewrite content relPath commentStyle (CommentPrefix (config p))
          = NewContent newContent true
       /\ snd (run p fs filePath relPath)
          = fst (WriteFile fs filePath newContent).
Proof.
  unfold run, processFile.
  destruct (isBinaryFile FS ReadFile fs filePath); [now left|].
  destruct (lookup _ (fileTypes p)) as [commentStyle|]; [|now left].
  destruct (ReadFile fs filePath) as [content|]; [|now left].
  unfold filepath.ToSlash.
  destruct (rewrite _ _ _ _) as [|newContent updated] eqn:R; [now left|].
  pose proof (rewrite_updated _ _ _ _ _ _ R) as ->. simpl.
  destruct (DryRun (options p)); simpl; [now left|].
  right. exists content, commentStyle, newContent.
  repeat split; try assumption.
  now destruct (WriteFile fs filePath newContent) as [fs' []].
Qed.

End ProcessFileFacts.

(** X11.  In a dry run [processFile] leaves the file system as it
    was, whatever the file and its type. *)
Theorem dry_run_writes_nothing
    (unicodeToLower : string -> string) (FS : Type)
    (ReadFile : FS -> string -> option string)
    (WriteFile : FS -> string -> string -> FS * bool)
    (p : Processor) (fs : FS) (filePath relPath : string) :
  DryRun (options p) = true ->
  snd (processFile unicodeToLower FS ReadFile WriteFile p fs filePath relPath)
  = fs.
Proof. apply processFile_dry_run. Qed.

Lemma dry_run_writes_nothing_witness :
  let p := {| options := {| DryRun := true; Verbose := false |};
              config := {| CommentPrefix := "File: " |};
              fileTypes := initializeFileTypes |} in
  let fs := [("/repo/main.go", "package main")] in
  processFile (fun s => s) memFS memRead memWrite p fs "/repo/main.go" "main.go"
  = ((true, None), fs).
Proof.
  intros p fs.
  pose proof (dry_run_writes_nothing (fun s => s) memFS memRead memWrite
                p fs "/repo/main.go" "main.go" eq_refl) as H.
  apply injective_projections; [reflexivity | exact H].
Defined.

(** X12.  [processFile] returns "not updated" without an error for a
    binary file and for no other: every other file ends in an error or
    is reported as updated, also when its header was right already.  A
    binary file is left as it was. *)
Theorem not_updated_means_binary
    (unicodeToLower : string -> string) (FS : Type)
    (ReadFile : FS -> string -> option string)
    (WriteFile : FS -> string -> string -> FS * bool)
    (p : Processor) (fs : FS) (filePath relPath : string) :
  let run := processFile unicodeToLower FS ReadFile WriteFile
               p fs filePath relPath in
  (fst run = (false, None) <-> isBinaryFile FS ReadFile fs filePath = true)
  /\ (isBinaryFile FS ReadFile fs filePath = true -> snd run = fs).
Proof. apply processFile_outcome. Qed.

(** X13.  [processFile] writes to no file but the one it was given:
    the file system is left as it was, or it is what [os.WriteFile]
    makes of it for that path and the content rewritten from the file's
    own content. *)
Theorem writes_only_its_file
    (unicodeToLower : string -> string) (FS : Type)
    (ReadFile : FS -> string -> option string)
    (WriteFile : FS -> string -> string -> FS * bool)
    (p : Processor) (fs : FS) (filePath relPath : string) :
  let run := processFile unicodeToLower FS ReadFile WriteFile
               p fs filePath relPath in
  snd run = fs
  \/ exists content commentStyle newContent,
       ReadFile fs filePath = Some content
       /\ lookup (ToLower unicodeToLower (filepath.Ext filePath))
            (fileTypes p) = Some commentStyle
       /\ rewrite content relPath commentStyle (CommentPrefix (config p))
          = NewContent newContent true
       /\ snd run = fst (WriteFile fs filePath newContent).
Proof. apply processFile_writes_own_file. Qed.

(** X14.  The rewrite fails for want of a comment style exactly when
    the line form is out, because [Preferred] is not "line" or the line
    token is empty, and a block delimiter is missing.  A line token
    does not help a style whose [Preferred] is anything but "line". *)
Theorem rewrite_fails_without_style
    (content relPath commentPrefix : string) (d : CommentStyle) :
  rewrite content relPath d commentPrefix = UnsupportedStyle
  <-> (Preferred d <> "line" \/ LineComment d = "")
      /\ (BlockCommentStart d = "" \/ BlockCommentEnd d = "").
Proof.
  assert (R : rewrite content relPath d commentPrefix = UnsupportedStyle
              <-> commentText d commentPrefix relPath = None).
  { unfold rewrite. destruct (commentText d commentPrefix relPath);
      [|tauto].
    destruct (bufio.firstLine content) as [line|];
      [destruct (hasPathComment line d commentPrefix)|];
      split; discriminate. }
  rewrite R, commentText_usable. unfold usable.
  destruct (String.eqb_spec (Preferred d) "line"),
    (String.eqb_spec (LineComment d) ""),
    (String.eqb_spec (BlockCommentStart d) ""),
    (String.eqb_spec (BlockCommentEnd d) ""); simpl; intuition congruence.
Qed.

(** X15.  When the header line holds no "\n" but its last byte, does
    not end in "\r" before it and fits the scanner, a second rewrite
    returns what the first did for content that is empty, or whose
    first line is no header, or whose header line ends in a bare
    "\n". *)
Theorem second_rewrite_changes_nothing
    (content relPath commentPrefix line : string)
    (commentStyle : CommentStyle) :
  commentText commentStyle commentPrefix relPath = Some (line ++ nl) ->
  IndexByte line LF = None ->
  bufio.dropCR line = line ->
  (N.of_nat (length line) < bufio.MaxScanTokenSize)%N ->
  bufio.firstLine content = None
  \/ (exists first,
         bufio.firstLine content = Some first
         /\ hasPathComment first commentStyle commentPrefix = false)
  \/ (exists first rest,
         content = first ++ nl ++ rest
         /\ IndexByte first LF = None
         /\ bufio.dropCR first = first
         /\ (N.of_nat (length first) < bufio.MaxScanTokenSize)%N
         /\ hasPathComment first commentStyle commentPrefix = true) ->
  exists once,
    rewrite content relPath commentStyle commentPrefix = NewContent once true
    /\ rewrite once relPath commentStyle commentPrefix = NewContent once true.
Proof.
  intros H I D L Cases.
  assert (Own : forall rest,
             rewrite ((line ++ nl) ++ rest) relPath commentStyle commentPrefix
             = NewContent ((line ++ nl) ++ rest) true)
    by (intros rest; now apply rewrite_own_header).
  destruct Cases as [N|[(first & F & P)|(first & rest & -> & I' & D' & L' & P)]].
  - exists (line ++ nl). split; [now apply rewrite_no_line|].
    specialize (Own ""). now rewrite append_nil_r in Own.
  - exists ((line ++ nl) ++ content). split; [|apply Own].
    now apply (rewrite_prepended _ _ _ _ _ first).
  - exists ((line ++ nl) ++ rest). split; [|apply Own].
    now apply rewrite_header_line.
Qed.

Lemma second_rewrite_changes_nothing_witness :
  exists once,
    rewrite ("// File: old.go" ++ nl ++ "package main" ++ nl)
      "cmd/new.go" cStyle "File: " = NewContent once true
    /\ rewrite once "cmd/new.go" cStyle "File: " = NewContent once true.
Proof.
  apply (second_rewrite_changes_nothing _ "cmd/new.go" "File: "
           "// File: cmd/new.go" cStyle); try reflexivity.
  right; right. exists "// File: old.go", ("package main" ++ nl).
  repeat split.
Defined.

(** X16.  When the first line runs to [MaxScanTokenSize] bytes or more
    before its "\n", the scanner gives up, [processFile] takes the file
    for an empty one, and the new content is the header line alone:
    the content of the file is dropped. *)
Theorem long_first_line_drops_content
    (relPath commentPrefix line rest header : string)
    (commentStyle : CommentStyle) :
  commentText commentStyle commentPrefix relPath = Some header ->
  IndexByte line LF = None ->
  (bufio.MaxScanTokenSize <= N.of_nat (length line))%N ->
  rewrite (line ++ nl ++ rest) relPath commentStyle commentPrefix
  = NewContent header true.
Proof. apply rewrite_long_first_line. Qed.

Lemma long_first_line_drops_content_witness :
  rewrite (repeatByte (2 ^ 16) "x" ++ nl ++ "var y = 1;") "min.js"
    cStyle "File: "
  = NewContent ("// File: min.js" ++ nl) true.
Proof.
  apply (long_first_line_drops_content "min.js" "File: "
           (repeatByte (2 ^ 16) "x") "var y = 1;" ("// File: min.js" ++ nl)
           cStyle).
  - reflexivity.
  - vm_compute. reflexivity.
  - vm_compute. discriminate.
Defined.

(** * Walking the tree *)

Lemma node_induction (P : node -> Prop) :
  (forall name, P (File name)) ->
  (forall name readDirFails entries,
      Forall P entries -> P (Dir name readDirFails entries)) ->
  forall d, P d.
Proof.
  intros HF HD. fix IH 1. intros [name|name readDirFails entries].
  - apply HF.
  - apply HD. induction entries as [|d1 rest IHrest]; constructor.
    + apply IH.
    + exact IHrest.
Qed.

Lemma countFiles_Dir (name : string) (readDirFails : bool)
    (entries : list node) :
  countFiles (Dir name readDirFails entries) = countFilesIn entries.
Proof.
  simpl. induction entries as [|d1 rest IH]; simpl; [reflexivity|].
  now rewrite IH.
Qed.

Section WalkFacts.

Variable Join : string -> string -> string.
Variable State : Type.
Variable fn : State -> string -> walkCall -> option walkErr * State.

Lemma walkDir_Dir (path name : string) (readDirFails : bool)
    (entries : list node) (st : State) :
  walkDir Join State fn path (Dir name readDirFails entries) st
  = match fn st path (Visit true name) with
    | (Some SkipDir, st1) => (None, st1)
    | (Some err, st1) => (Some err, st1)
    | (None, st1) =>
        match (if readDirFails then fn st1 path (ReadDirFailed name)
               else (None, st1)) with
        | (Some SkipDir, st2) => (None, st2)
        | (Some err, st2) => (Some err, st2)
        | (None, st2) => walkEntries Join State fn path entries st2
        end
    end.
Proof. reflexivity. Qed.

Lemma walkEntries_cons (path : string) (d1 : node) (rest : list node)
    (st : State) :
  walkEntries Join State fn path (d1 :: rest) st
  = match walkDir Join State fn (Join path (nodeName d1)) d1 st with
    | (Some SkipDir, st') => (None, st')
    | (Some err, st') => (Some err, st')
    | (None, st') => walkEntries Join State fn path rest st'
    end.
Proof. reflexivity. Qed.

(** An invariant [Q k] of the state, [k] counting the files visited so
    far: a visit to a file takes [Q k] to [Q (S k)] while [k] is below
    [bound], and every other call keeps [Q k]. *)
Variable Q : nat -> State -> Prop.
Variable bound : nat.

Hypothesis visit_file :
  forall k st path name,
    Q k st -> k < bound -> Q (S k) (snd (fn st path (Visit false name))).
Hypothesis visit_other :
  forall k st path call,
    (forall name, call <> Visit false name) ->
    Q k st -> Q k (snd (fn st path call)).

Lemma walkDir_invariant (d : node) :
  forall path st k,
    Q k st -> k + countFiles d <= bound ->
    exists m, m <= countFiles d
              /\ Q (k + m) (snd (walkDir Join State fn path d st)).
Proof.
  induction d as [name|name readDirFails entries IH] using node_induction;
    intros path st k H B.
  - exists 1. split; [reflexivity|]. rewrite Nat.add_1_r.
    apply visit_file; [exact H | simpl in B; lia].
  - rewrite walkDir_Dir. rewrite countFiles_Dir in B |- *.
    assert (H1 : Q k (snd (fn st path (Visit true name))))
      by (apply visit_other; [discriminate | exact H]).
    destruct (fn st path (Visit true name)) as [[[| |]|] st1]; simpl in H1;
      try (exists 0; split; [lia | now rewrite Nat.add_0_r]).
    assert (H2 : Q k (snd (if readDirFails
                           then fn st1 path (ReadDirFailed name)
                           else (None, st1)))).
    { destruct readDirFails; [|exact H1].
      apply visit_other; [discriminate | exact H1]. }
    destruct (if readDirFails then fn st1 path (ReadDirFailed name)
              else (None, st1)) as [[[| |]|] st2]; simpl in H2;
      try (exists 0; split; [lia | now rewrite Nat.add_0_r]).
    clear H H1 st st1. revert st2 k H2 B.
    induction IH as [|d1 rest IH1 _ IHrest]; intros st k H B.
    + exists 0. split; [lia | now rewrite Nat.add_0_r].
    + simpl in B. rewrite walkEntries_cons.
      destruct (IH1 (Join path (nodeName d1)) st k H) as (m1 & L1 & H1);
        [lia|].
      destruct (walkDir Join State fn (Join path (nodeName d1)) d1 st)
        as [[[| |]|] st']; simpl in H1;
        try (exists m1; split; [simpl; lia | exact H1]).
      destruct (IHrest st' (k + m1) H1) as (m2 & L2 & H2); [lia|].
      exists (m1 + m2). split; [simpl; lia|]. now rewrite Nat.add_assoc.
Qed.

(** When the function never returns an error for an entry and every
    directory can be read, the walk ends without an error after a
    visit to every file. *)
Hypothesis visit_nil :
  forall st path isDir name, fst (fn st path (Visit isDir name)) = None.

Lemma walkDir_complete (d : node) :
  readable d = true ->
  forall path st k,
    Q k st -> k + countFiles d <= bound ->
    fst (walkDir Join State fn path d st) = None
    /\ Q (k + countFiles d) (snd (walkDir Join State fn path d st)).
Proof.
  induction d as [name|name readDirFails entries IH] using node_induction;
    intros R path st k H B.
  - split; [apply visit_nil|]. simpl countFiles. rewrite Nat.add_1_r.
    apply visit_file; [exact H | simpl in B; lia].
  - rewrite walkDir_Dir. rewrite countFiles_Dir in B |- *.
    assert (H1 : Q k (snd (fn st path (Visit true name))))
      by (apply visit_other; [discriminate | exact H]).
    pose proof (visit_nil st path true name) as N.
    destruct (fn st path (Visit true name)) as [e st1]. simpl in N, H1.
    subst e. simpl in R. apply andb_true_iff in R as [R1 R2].
    apply negb_true_iff in R1. subst readDirFails.
    clear H st. revert st1 k H1 B.
    induction IH as [|d1 rest IH1 _ IHrest]; intros st k H B.
    + split; [reflexivity | now rewrite Nat.add_0_r].
    + apply andb_true_iff in R2 as [Rd Rr]. simpl in B.
      rewrite walkEntries_cons.
      destruct (IH1 Rd (Join path (nodeName d1)) st k H) as [E1 H1]; [lia|].
      destruct (walkDir Join State fn (Join path (nodeName d1)) d1 st)
        as [e st']. simpl in E1, H1. subst e.
      destruct (IHrest Rr st' (k + countFiles d1) H1) as [E2 H2]; [lia|].
      split; [exact E2|]. simpl countFilesIn.
      now rewrite Nat.add_assoc.
Qed.

End WalkFacts.

(** * [Process] *)

Lemma incr_next (n : Z) :
  (0 <= n)%Z -> (n + 1 < 2 ^ 63)%Z -> incr n = (n + 1)%Z.
Proof.
  intros L U. unfold incr. rewrite Z.mod_small; lia.
Qed.

Section ProcessFacts.

Variable Rel : string -> string -> option string.
Variable unicodeToLower : string -> string.
Variable trimFuncIsSpace : string -> string.
Variable trimRightFuncIsSpace : string -> string.
Variable Join : string -> string -> string.
Variable FS : Type.
Variable ReadFile : FS -> string -> option string.
Variable WriteFile : FS -> string -> string -> FS * bool.
Variable Open : FS -> string -> opened.

Let visitor := visit Rel unicodeToLower FS ReadFile WriteFile.
Let process :=
  Process Rel unicodeToLower trimFuncIsSpace trimRightFuncIsSpace Join
    FS ReadFile WriteFile Open.
Let load := NewGitIgnore trimFuncIsSpace trimRightFuncIsSpace Join FS Open.

Lemma WalkDir_snd (State : Type)
    (fn : State -> string -> walkCall -> option walkErr * State)
    (root : string) (tree : option node) (st : State) :
  snd (WalkDir Join State fn root tree st)
  = snd (match tree with
         | None => fn st root LstatFailed
         | Some d => walkDir Join State fn root d st
         end).
Proof.
  unfold WalkDir.
  now destruct (match tree with None => _ | Some d => _ end)
    as [[[| |]|] st'].
Qed.

Lemma Process_loaded (p : ProcessorState) (fs : FS) (tree : option node)
    (gi : GitIgnore) :
  load fs (pRootDir p) = Some gi ->
  let walk := WalkDir Join (Stats * FS) (visitor p gi) (pRootDir p) tree
                (statistics p, fs) in
  process p fs tree
  = ((fst (snd walk),
      match fst walk with Some _ => Some ErrWalk | None => None end),
     snd (snd walk)).
Proof.
  intros G walk. unfold process, Process. fold load. rewrite G.
  fold visitor. fold walk. now destruct walk as [[e|] [stats fs']].
Qed.

Lemma visit_counts_file (p : ProcessorState) (gi : GitIgnore) (k : nat)
    (st : Stats * FS) (path name : string) :
  counted k (fst st) -> (Z.of_nat k + 1 < 2 ^ 63)%Z ->
  counted (S k) (fst (snd (visitor p gi st path (Visit false name)))).
Proof.
  destruct st as [stats fs]. unfold counted. simpl fst.
  intros (U & Sk & E & P & K) B.
  assert (X : forall n, (0 <= n <= Z.of_nat k)%Z -> incr n = (n + 1)%Z)
    by (intros n Hn; apply incr_next; lia).
  assert (Skip : counted (S k) (countSkipped stats)).
  { unfold counted, countSkipped.
    cbn [Processed Updated Skipped Errors]. rewrite X by lia. lia. }
  assert (Err : counted (S k) (countError stats)).
  { unfold counted, countError.
    cbn [Processed Updated Skipped Errors]. rewrite X by lia. lia. }
  unfold visitor, visit.
  destruct (negb (optIncludeHidden (pOptions p)) && isHidden name);
    [exact Skip|].
  destruct (negb (IncludeGitIgnored (pConfig p)) && ShouldIgnore Rel gi path);
    [exact Skip|].
  destruct (Rel (pRootDir p) path) as [relPath|]; [|exact Err].
  destruct (lookup _ (pFileTypes p)); [|exact Skip].
  destruct (processFile _ _ _ _ _ fs path relPath) as [[[|] [e|]] fs'];
    unfold counted;
    cbn [fst snd Processed Updated Skipped Errors
         countError countProcessed countUpdated countSkipped];
    rewrite !X by lia; lia.
Qed.

Lemma visit_keeps_other (p : ProcessorState) (gi : GitIgnore)
    (st : Stats * FS) (path : string) (call : walkCall) :
  (forall name, call <> Visit false name) ->
  snd (visitor p gi st path call) = st.
Proof.
  destruct st as [stats fs]. intros N. unfold visitor, visit.
  destruct call as [[|] name|name|]; try reflexivity.
  - now destruct (negb (optIncludeHidden (pOptions p)) && isHidden name).
  - now destruct (N name).
Qed.

Lemma visit_dry_run (p : ProcessorState) (gi : GitIgnore)
    (st : Stats * FS) (path : string) (call : walkCall) :
  optDryRun (pOptions p) = true ->
  snd (snd (visitor p gi st path call)) = snd st.
Proof.
  intros D. destruct st as [stats fs]. unfold visitor, visit.
  destruct call as [[|] name|name|]; try reflexivity.
  - now destruct (negb (optIncludeHidden (pOptions p)) && isHidden name).
  - destruct (negb (optIncludeHidden (pOptions p)) && isHidden name);
      [reflexivity|].
    destruct (negb (IncludeGitIgnored (pConfig p))
              && ShouldIgnore Rel gi path); [reflexivity|].
    destruct (Rel (pRootDir p) path) as [relPath|]; [|reflexivity].
    destruct (lookup _ (pFileTypes p)); [|reflexivity].
    pose proof (processFile_dry_run unicodeToLower FS ReadFile WriteFile
                  (forProcessFile p) fs path relPath D) as H.
    destruct (processFile _ _ _ _ _ fs path relPath)
      as [[[|] [e|]] fs']; exact H.
Qed.

Lemma Process_counts (p : ProcessorState) (fs : FS) (d : node) :
  statistics p = noStats ->
  (Z.of_nat (countFiles d) < 2 ^ 63)%Z ->
  exists k, k <= countFiles d
            /\ counted k (fst (fst (process p fs (Some d)))).
Proof.
  intros Z B. destruct (load fs (pRootDir p)) as [gi|] eqn:G.
  - rewrite (Process_loaded p fs (Some d) gi G). simpl fst.
    rewrite WalkDir_snd.
    destruct (walkDir_invariant Join (Stats * FS) (visitor p gi)
                (fun k st => counted k (fst st)) (countFiles d))
      with (d := d) (path := pRootDir p) (st := (statistics p, fs)) (k := 0)
      as (m & L & H).
    + intros k st path name H K. apply visit_counts_file; [exact H | lia].
    + intros k st path call N H. now rewrite visit_keeps_other.
    + rewrite Z. unfold counted, noStats. simpl. lia.
    + lia.
    + exists m. split; [exact L | exact H].
  - exists 0. split; [lia|]. unfold process, Process. fold load.
    rewrite G, Z. unfold counted, noStats. simpl. lia.
Qed.

Lemma Process_counts_all (p : ProcessorState) (fs : FS) (d : node)
    (gi : GitIgnore) :
  statistics p = noStats ->
  (Z.of_nat (countFiles d) < 2 ^ 63)%Z ->
  load fs (pRootDir p) = Some gi ->
  optIncludeHidden (pOptions p) = true ->
  readable d = true ->
  snd (fst (process p fs (Some d))) = None
  /\ counted (countFiles d) (fst (fst (process p fs (Some d)))).
Proof.
  intros Z B G I R. rewrite (Process_loaded p fs (Some d) gi G). simpl.
  destruct (walkDir_complete Join (Stats * FS) (visitor p gi)
              (fun k st => counted k (fst st)) (countFiles d))
    with (d := d) (path := pRootDir p) (st := (statistics p, fs)) (k := 0)
    as [E H]; try assumption.
  - intros k st path name H K. apply visit_counts_file; [exact H | lia].
  - intros k st path call N H. now rewrite visit_keeps_other.
  - intros [stats fs0] path isDir name. unfold visitor, visit. rewrite I.
    simpl negb. simpl andb. destruct isDir; [reflexivity|].
    destruct (negb (IncludeGitIgnored (pConfig p))
              && ShouldIgnore Rel gi path); [reflexivity|].
    destruct (Rel (pRootDir p) path) as [relPath|]; [|reflexivity].
    destruct (lookup _ (pFileTypes p)); [|reflexivity].
    destruct (processFile _ _ _ _ _ fs0 path relPath)
      as [[[|] [e|]] fs']; reflexivity.
  - rewrite Z. unfold counted, noStats. simpl. lia.
  - lia.
  - unfold WalkDir.
    destruct (walkDir Join (Stats * FS) (visitor p gi) (pRootDir p) d
                (statistics p, fs)) as [e st']. simpl in E, H. subst e.
    split; [reflexivity | exact H].
Qed.

Lemma Process_dry_run (p : ProcessorState) (fs : FS) (tree : option node) :
  optDryRun (pOptions p) = true ->
  snd (process p fs tree) = fs.
Proof.
  intros D. destruct (load fs (pRootDir p)) as [gi|] eqn:G.
  - rewrite (Process_loaded p fs tree gi G). simpl snd.
    rewrite WalkDir_snd. destruct tree as [d|].
    + destruct (walkDir_invariant Join (Stats * FS) (visitor p gi)
                  (fun _ st => snd st = fs) (countFiles d))
        with (d := d) (path := pRootDir p) (st := (statistics p, fs))
             (k := 0) as (m & _ & H); try reflexivity.
      * intros k st path name H _. now rewrite visit_dry_run.
      * intros k st path call _ H. now rewrite visit_dry_run.
      * exact H.
    + now rewrite visit_dry_run.
  - unfold process, Process. fold load. now rewrite G.
Qed.

Lemma Process_hidden_root (p : ProcessorState) (fs : FS) (name : string)
    (readDirFails : bool) (entries : list node) (gi : GitIgnore) :
  load fs (pRootDir p) = Some gi ->
  optIncludeHidden (pOptions p) = false ->
  isHidden name = true ->
  process p fs (Some (Dir name readDirFails entries))
  = ((statistics p, None), fs).
Proof.
  intros G I H. rewrite (Process_loaded p fs _ gi G).
  unfold WalkDir. rewrite walkDir_Dir. unfold visitor, visit.
  now rewrite I, H.
Qed.

End ProcessFacts.

(** X17.  From counters at zero, and with fewer than [2^63] files in
    the tree, [Process] returns counters that are not negative, with
    [Updated <= Processed <= Updated + Skipped + Errors], the latter at
    most the number of files in the tree. *)
Theorem statistics_bounded
    (Rel : string -> string -> option string)
    (unicodeToLower trimFuncIsSpace trimRightFuncIsSpace : string -> string)
    (Join : string -> string -> string) (FS : Type)
    (ReadFile : FS -> string -> option string)
    (WriteFile : FS -> string -> string -> FS * bool)
    (Open : FS -> string -> opened)
    (p : ProcessorState) (fs : FS) (d : node) :
  statistics p = noStats ->
  (Z.of_nat (countFiles d) < 2 ^ 63)%Z ->
  let s := fst (fst (Process Rel unicodeToLower trimFuncIsSpace
                       trimRightFuncIsSpace Join FS ReadFile WriteFile Open
                       p fs (Some d))) in
  (0 <= Updated s <= Processed s)%Z
  /\ (0 <= Skipped s)%Z /\ (0 <= Errors s)%Z
  /\ (Processed s <= Updated s + Skipped s + Errors s)%Z
  /\ (Updated s + Skipped s + Errors s <= Z.of_nat (countFiles d))%Z.
Proof.
  intros Z B s.
  destruct (Process_counts Rel unicodeToLower trimFuncIsSpace
              trimRightFuncIsSpace Join FS ReadFile WriteFile Open
              p fs d Z B) as (k & L & U & Sk & E & P & K).
  fold s in U, Sk, E, P, K. repeat split; lia.
Qed.

Lemma statistics_bounded_witness :
  let s := fst (fst (memProcess false false)) in
  (0 <= Updated s <= Processed s)%Z
  /\ (0 <= Skipped s)%Z /\ (0 <= Errors s)%Z
  /\ (Processed s <= Updated s + Skipped s + Errors s)%Z
  /\ (Updated s + Skipped s + Errors s <= Z.of_nat (countFiles memTree))%Z.
Proof.
  exact (statistics_bounded memRel (fun s => s) (fun s => s) (fun s => s)
           joinClean memFS memRead memWrite memOpen
           (memProcessor false false) memFiles memTree eq_refl eq_refl).
Defined.

(** X18.  When hidden entries are included, every directory can be
    read and the .gitignore file loads, the walk ends without an error
    and every file of the tree is counted once: [Updated], [Skipped]
    and [Errors] add up to the number of files. *)
Theorem every_file_counted
    (Rel : string -> string -> option string)
    (unicodeToLower trimFuncIsSpace trimRightFuncIsSpace : string -> string)
    (Join : string -> string -> string) (FS : Type)
    (ReadFile : FS -> string -> option string)
    (WriteFile : FS -> string -> string -> FS * bool)
    (Open : FS -> string -> opened)
    (p : ProcessorState) (fs : FS) (d : node) (gi : GitIgnore) :
  statistics p = noStats ->
  (Z.of_nat (countFiles d) < 2 ^ 63)%Z ->
  NewGitIgnore trimFuncIsSpace trimRightFuncIsSpace Join FS Open
    fs (pRootDir p) = Some gi ->
  optIncludeHidden (pOptions p) = true ->
  readable d = true ->
  let result := fst (Process Rel unicodeToLower trimFuncIsSpace
                       trimRightFuncIsSpace Join FS ReadFile WriteFile Open
                       p fs (Some d)) in
  snd result = None
  /\ (Updated (fst result) + Skipped (fst result) + Errors (fst result)
      = Z.of_nat (countFiles d))%Z.
Proof.
  intros Z B G I R result.
  destruct (Process_counts_all Rel unicodeToLower trimFuncIsSpace
              trimRightFuncIsSpace Join FS ReadFile WriteFile Open
              p fs d gi Z B G I R) as (E & _ & _ & _ & _ & K).
  split; [exact E | exact K].
Qed.

Lemma every_file_counted_witness :
  let result := fst (memProcess false true) in
  snd result = None
  /\ (Updated (fst result) + Skipped (fst result) + Errors (fst result)
      = 5)%Z.
Proof.
  exact (every_file_counted memRel (fun s => s) (fun s => s) (fun s => s)
           joinClean memFS memRead memWrite memOpen
           (memProcessor false true) memFiles memTree
           {| patterns := ["vendor/"]; rootDir := "/repo" |}
           eq_refl eq_refl eq_refl eq_refl eq_refl).
Defined.

(** X19.  In a dry run [Process] leaves the file system as it was,
    whatever the tree holds and whether or not the walk ends in an
    error. *)
Theorem dry_run_process_writes_nothing
    (Rel : string -> string -> option string)
    (unicodeToLower trimFuncIsSpace trimRightFuncIsSpace : string -> string)
    (Join : string -> string -> string) (FS : Type)
    (ReadFile : FS -> string -> option string)
    (WriteFile : FS -> string -> string -> FS * bool)
    (Open : FS -> string -> opened)
    (p : ProcessorState) (fs : FS) (tree : option node) :
  optDryRun (pOptions p) = true ->
  snd (Process Rel unicodeToLower trimFuncIsSpace trimRightFuncIsSpace
         Join FS ReadFile WriteFile Open p fs tree) = fs.
Proof. apply Process_dry_run. Qed.

Lemma dry_run_process_writes_nothing_witness :
  snd (memProcess true false) = memFiles
  /\ Updated (fst (fst (memProcess true false))) = 1%Z.
Proof.
  split; [|reflexivity].
  exact (dry_run_process_writes_nothing memRel (fun s => s) (fun s => s)
           (fun s => s) joinClean memFS memRead memWrite memOpen
           (memProcessor true false) memFiles (Some memTree) eq_refl).
Defined.

(** X20.  When hidden entries are not included and the name of the
    root directory itself starts with ".", [Process] skips the whole
    tree: it returns the counters it started with and no error, and
    writes nothing. *)
Theorem hidden_root_skipped
    (Rel : string -> string -> option string)
    (unicodeToLower trimFuncIsSpace trimRightFuncIsSpace : string -> string)
    (Join : string -> string -> string) (FS : Type)
    (ReadFile : FS -> string -> option string)
    (WriteFile : FS -> string -> string -> FS * bool)
    (Open : FS -> string -> opened)
    (p : ProcessorState) (fs : FS) (name : string) (readDirFails : bool)
    (entries : list node) (gi : GitIgnore) :
  NewGitIgnore trimFuncIsSpace trimRightFuncIsSpace Join FS Open
    fs (pRootDir p) = Some gi ->
  optIncludeHidden (pOptions p) = false ->
  isHidden name = true ->
  Process Rel unicodeToLower trimFuncIsSpace trimRightFuncIsSpace
    Join FS ReadFile WriteFile Open p fs
    (Some (Dir name readDirFails entries))
  = ((statistics p, None), fs).
Proof. apply Process_hidden_root. Qed.

Lemma hidden_root_skipped_witness :
  Process memRel (fun s => s) (fun s => s) (fun s => s) joinClean
    memFS memRead memWrite memOpen (memProcessor false false) memFiles
    (Some (Dir ".dotfiles" false [File "main.go"]))
  = ((noStats, None), memFiles).
Proof.
  exact (hidden_root_skipped memRel (fun s => s) (fun s => s) (fun s => s)
           joinClean memFS memRead memWrite memOpen
           (memProcessor false false) memFiles ".dotfiles" false
           [File "main.go"]
           {| patterns := ["vendor/"]; rootDir := "/repo" |}
           eq_refl eq_refl eq_refl).
Defined.

(** * The configuration *)

Lemma lookup_app (ext : string) (a b : list (string * CommentStyle)) :
  lookup ext (a ++ b)
  = match lookup ext a with
    | Some style => Some style
    | None => lookup ext b
    end.
Proof.
  induction a as [|[key style] a IH]; simpl; [reflexivity|].
  now destruct (key =? ext).
Qed.

Lemma lookup_merged (ext : string)
    (defaults fileTypes : list (string * CommentStyle)) :
  lookup ext
    (fold_left
       (fun fileTypes '(ext, style) =>
          match lookup ext fileTypes with
          | Some _ => fileTypes
          | None => (fileTypes ++ [(ext, style)])%list
          end)
       defaults fileTypes)
  = match lookup ext fileTypes with
    | Some style => Some style
    | None => lookup ext defaults
    end.
Proof.
  revert fileTypes; induction defaults as [|[key style] defaults IH];
    intros fileTypes; simpl.
  - now destruct (lookup ext fileTypes).
  - rewrite IH. destruct (lookup key fileTypes) as [known|] eqn:K.
    + destruct (lookup ext fileTypes) eqn:E; [reflexivity|].
      destruct (String.eqb_spec key ext) as [->|N]; [congruence | reflexivity].
    + rewrite lookup_app. simpl.
      destruct (lookup ext fileTypes); [reflexivity|].
      now destruct (key =? ext).
Qed.

(** X21.  After [MergeConfig] an extension has the style the
    configuration gave it, and the default style when the configuration
    has none for it; the other fields of the configuration are as they
    were. *)
Theorem MergeConfig_prefers_configured
    (config : ModelsConfig) (defaults : list (string * CommentStyle))
    (ext : string) :
  let merged := MergeConfig config defaults in
  lookup ext (FileTypes merged)
  = match lookup ext (FileTypes config) with
    | Some style => Some style
    | None => lookup ext defaults
    end
  /\ AdditionalIgnores merged = AdditionalIgnores config
  /\ IncludeGitIgnored merged = IncludeGitIgnored config
  /\ IncludeHidden merged = IncludeHidden config
  /\ cfgDryRun merged = cfgDryRun config
  /\ cfgCommentPrefix merged = cfgCommentPrefix config
  /\ UpdateExistingPrefix merged = UpdateExistingPrefix config.
Proof.
  unfold MergeConfig.
  destruct (List.length (FileTypes config) =? 0)%nat eqn:E;
    cbn [FileTypes withFileTypes AdditionalIgnores IncludeGitIgnored
         IncludeHidden cfgDryRun cfgCommentPrefix UpdateExistingPrefix];
    (split; [|now repeat split]).
  - destruct (FileTypes config); [reflexivity | discriminate].
  - apply lookup_merged.
Qed.

(** X22.  The file types of the configuration file do not reach
    [processFile]: on the processor [NewProcessor] makes, a file whose
    extension is not among the built-in ones is turned down as an
    unsupported type, whatever the configuration declares for it. *)
Theorem configured_file_types_unused
    (Unmarshal : string -> ModelsConfig -> option ModelsConfig)
    (unicodeToLower : string -> string) (FS : Type)
    (ReadFile : FS -> string -> option string)
    (WriteFile : FS -> string -> string -> FS * bool)
    (fs0 fs : FS) (root filePath relPath : string)
    (options : ProcessorOptions) :
  let p := NewProcessor Unmarshal FS ReadFile fs0 root options in
  let ext := ToLower unicodeToLower (filepath.Ext filePath) in
  lookup ext initializeFileTypes = None ->
  isBinaryFile FS ReadFile fs filePath = false ->
  processFile unicodeToLower FS ReadFile WriteFile (forProcessFile p)
    fs filePath relPath
  = ((false, Some (ErrUnsupportedFileType ext)), fs).
Proof.
  intros p ext L B. unfold processFile. rewrite B. fold ext.
  change (fileTypes (forProcessFile p)) with initializeFileTypes.
  now rewrite L.
Qed.

Lemma configured_file_types_unused_witness :
  let markdown := {| LineComment := ""; BlockCommentStart := "<!--";
                     BlockCommentEnd := "-->"; Preferred := "block" |} in
  let fs := [("/etc/pathfix.json", "{}"); ("/repo/README.md", "# Title")] in
  let p := NewProcessor
             (fun _ config => Some (withFileTypes config [(".md", markdown)]))
             memFS memRead fs "/repo"
             {| optDryRun := false; optConfigFile := "/etc/pathfix.json";
                optVerbose := false; optIncludeHidden := false |} in
  lookup ".md" (FileTypes (pConfig p)) = Some markdown
  /\ processFile (fun s => s) memFS memRead memWrite (forProcessFile p)
       fs "/repo/README.md" "README.md"
     = ((false, Some (ErrUnsupportedFileType ".md")), fs).
Proof.
  intros markdown fs p. split; [reflexivity|].
  exact (configured_file_types_unused
           (fun _ config => Some (withFileTypes config [(".md", markdown)]))
           (fun s => s) memFS memRead memWrite fs fs "/repo"
           "/repo/README.md" "README.md" _ eq_refl eq_refl).
Defined.

(** X23.  [Process] reads two fields of the configuration,
    [IncludeGitIgnored] and [CommentPrefix]: with these two the same,
    no other field, [AdditionalIgnores] and [FileTypes] among them,
    changes what it returns or writes. *)
Theorem Process_reads_two_config_fields
    (Rel : string -> string -> option string)
    (unicodeToLower trimFuncIsSpace trimRightFuncIsSpace : string -> string)
    (Join : string -> string -> string) (FS : Type)
    (ReadFile : FS -> string -> option string)
    (WriteFile : FS -> string -> string -> FS * bool)
    (Open : FS -> string -> opened)
    (p : ProcessorState) (config : ModelsConfig) (fs : FS)
    (tree : option node) :
  IncludeGitIgnored config = IncludeGitIgnored (pConfig p) ->
  cfgCommentPrefix config = cfgCommentPrefix (pConfig p) ->
  Process Rel unicodeToLower trimFuncIsSpace trimRightFuncIsSpace
    Join FS ReadFile WriteFile Open
    {| pRootDir := pRootDir p; pOptions := pOptions p; pConfig := config;
       pFileTypes := pFileTypes p; statistics := statistics p |} fs tree
  = Process Rel unicodeToLower trimFuncIsSpace trimRightFuncIsSpace
      Join FS ReadFile WriteFile Open p fs tree.
Proof.
  destruct p as [root options [ft ai igi ih dr cp uep] fileTypes stats].
  destruct config as [ft' ai' igi' ih' dr' cp' uep'].
  simpl. intros -> ->. reflexivity.
Qed.

Lemma Process_reads_two_config_fields_witness :
  let p := memProcessor false false in
  Process memRel (fun s => s) (fun s => s) (fun s => s) joinClean
    memFS memRead memWrite memOpen
    {| pRootDir := pRootDir p; pOptions := pOptions p;
       pConfig := {| FileTypes := []; AdditionalIgnores := ["*.go"];
                     IncludeGitIgnored := false; IncludeHidden := true;
                     cfgDryRun := true; cfgCommentPrefix := "File: ";
                     UpdateExistingPrefix := "Path: " |};
       pFileTypes := pFileTypes p; statistics := statistics p |}
    memFiles (Some memTree)
  = memProcess false false.
Proof.
  intros p.
  exact (Process_reads_two_config_fields memRel (fun s => s) (fun s => s)
           (fun s => s) joinClean memFS memRead memWrite memOpen p
           {| FileTypes := []; AdditionalIgnores := ["*.go"];
              IncludeGitIgnored := false; IncludeHidden := true;
              cfgDryRun := true; cfgCommentPrefix := "File: ";
              UpdateExistingPrefix := "Path: " |}
           memFiles (Some memTree) eq_refl eq_refl).
Defined.

(** X24.  A header on a first line that a bare "\n" closes is replaced
    where it stands: the new content is the header line followed by
    what followed the old line, byte for byte. *)
Theorem header_line_replaced_in_place
    (relPath commentPrefix line rest header : string)
    (commentStyle : CommentStyle) :
  commentText commentStyle commentPrefix relPath = Some header ->
  IndexByte line LF = None ->
  bufio.dropCR line = line ->
  (N.of_nat (length line) < bufio.MaxScanTokenSize)%N ->
  hasPathComment line commentStyle commentPrefix = true ->
  rewrite (line ++ nl ++ rest) relPath commentStyle commentPrefix
  = NewContent (header ++ rest) true.
Proof. apply rewrite_header_line. Qed.

Lemma header_line_replaced_in_place_witness :
  rewrite ("<!-- File: old.html -->" ++ nl ++ "<html>" ++ crlf ++ "</html>")
    "site/index.html"
    {| LineComment := ""; BlockCommentStart := "<!--";
       BlockCommentEnd := "-->"; Preferred := "block" |} "File: "
  = NewContent ("<!-- File: site/index.html -->" ++ nl
                ++ "<html>" ++ crlf ++ "</html>") true.
Proof.
  apply (header_line_replaced_in_place "site/index.html" "File: "
           "<!-- File: old.html -->" ("<html>" ++ crlf ++ "</html>")
           ("<!-- File: site/index.html -->" ++ nl));
    reflexivity.
Defined.
